(** * A shallow embedding of [probe.py], the network probe service

    The service measures the path to the default gateway in a loop and
    appends one row per successful cycle to an SQLite table and to a CSV
    mirror.  This file embeds the functions of [probe.py] as Rocq functions
    and proves properties of the measurement-and-recording pipeline.

    Modelling conventions.
    - Python [float]s are exact rationals ([Q], kept in lowest terms by
      [Qred]); [round] rounds the exact value, half to even.  Python rounds
      the binary float, so at a decimal tie (a mean of 1.075) the two can
      differ in the last digit; the statements below bound the distance to
      the exact value and do not depend on how ties fall.
    - A Python value that may be [None] is an [option].
    - Every call that leaves the process (a subprocess, the clock, a socket,
      psutil, speedtest, requests) is answered by a [World], an oracle
      indexed by a tick that counts the external calls made so far.  The
      library functions applied to text ([re.search], [re.findall], [float],
      [int], [str.splitlines], [str.lower]) are fields of the [World] too.
    - Exceptions are the subclasses of [Exception]; an asynchronous
      [KeyboardInterrupt] is outside the model, so [except:] and
      [except Exception] catch the same things.
    - The file system is the three paths the program names: the database,
      its backup and the CSV mirror.  A database file is its table
      [new_probe_logs], if it has one; writes to it succeed, so the one
      failure of SQLite in the model is a statement on a missing table.  A
      CSV file is the list of the records [csv.writer] was given, each a
      list of values; their rendering as text is not modelled.
    - [print] of ASCII text is taken to succeed and is left out.  Modelled
      are the [print]s that can raise: the three whose text has characters
      outside ASCII (lines 277, 316, 319), which raise [UnicodeEncodeError]
      on a standard output that cannot encode them, and the one whose format
      raises on [None] (line 306). *)

From Stdlib Require Import ZArith QArith Qround Qabs String Ascii List Bool Lia Lqa.
From Stdlib Require Import DecimalString Sorted.
Import ListNotations.

Open Scope string_scope.
Open Scope Z_scope.

(** ** Exceptions and outcomes *)

Inductive exn : Type :=
| CalledProcessError
| TypeError
| ValueError
| ZeroDivisionError
| UnicodeDecodeError
| UnicodeEncodeError
| OSError
| OperationalError
| OtherError (name : string).

Inductive outcome (A : Type) : Type :=
| Returns (a : A)
| Raises (e : exn).
Arguments Returns {A} a.
Arguments Raises {A} e.

Definition is_CalledProcessError (e : exn) : bool :=
  match e with CalledProcessError => true | _ => false end.

(** ** Numbers *)

(** [str(n)] for a Python int. *)
Definition str_of_int (n : Z) : string := NilZero.string_of_int (Z.to_int n).

(** [a / b] on Python ints: true division. *)
Definition truediv (a b : Z) : outcome Q :=
  if b =? 0 then Raises ZeroDivisionError
  else Returns (Qred (inject_Z a / inject_Z b)).

(** [round(x)]: the nearest integer, ties to the even one. *)
Definition round_half_even (x : Q) : Z :=
  let f := Qfloor x in
  match ((x - inject_Z f) ?= (1 # 2))%Q with
  | Lt => f
  | Gt => f + 1
  | Eq => if Z.even f then f else f + 1
  end.

(** [round(x, 2)]. *)
Definition round2 (x : Q) : Q := Qred (round_half_even (x * 100) # 100).

(** [statistics.mean] on a non-empty list. *)
Definition Qsum (l : list Q) : Q := fold_right Qplus 0%Q l.

Definition statistics_mean (l : list Q) : Q :=
  Qred (Qsum l / inject_Z (Z.of_nat (length l))).

(** [statistics.variance]: the sum of squared deviations from the mean over
    [n - 1]. *)
Definition statistics_variance (l : list Q) : Q :=
  let m := statistics_mean l in
  Qred (Qsum (map (fun x => (x - m) * (x - m))%Q l)
        / inject_Z (Z.of_nat (length l) - 1)).

(** [round(math.sqrt(v), 2)] for a rational [v >= 0], in hundredths.  The
    square root itself is not rational, so the rounded root is computed from
    the integer square root of [40000 * v]: with [s = floor (sqrt (40000 v))]
    one has [200 * sqrt v] in [[s, s+1)]. *)
Definition round2_sqrt_hundredths (v : Q) : Z :=
  let x := (v * 40000)%Q in
  let s := Z.sqrt (Qfloor x) in
  let n := s / 2 in
  if Z.even s then n
  else if Qeq_bool x (inject_Z (s * s)) then (if Z.even n then n else n + 1)
  else n + 1.

(** [round(statistics.stdev(l), 2)]. *)
Definition round2_stdev (l : list Q) : Q :=
  Qred (round2_sqrt_hundredths (statistics_variance l) # 100).

(** ** Dates *)

Record datetime : Type := {
  dt_year : nat; dt_month : nat; dt_day : nat;
  dt_hour : nat; dt_minute : nat; dt_second : nat
}.

Definition str_of_nat (n : nat) : string := NilZero.string_of_uint (Nat.to_uint n).

Definition pad2 (n : nat) : string :=
  if (n <? 10)%nat then "0" ++ str_of_nat n else str_of_nat n.

Definition pad4 (n : nat) : string :=
  if (n <? 10)%nat then "000" ++ str_of_nat n
  else if (n <? 100)%nat then "00" ++ str_of_nat n
  else if (n <? 1000)%nat then "0" ++ str_of_nat n
  else str_of_nat n.

(** [strftime("%Y-%m-%d")] and [strftime("%H:%M:%S")]. *)
Definition strftime_date (d : datetime) : string :=
  pad4 (dt_year d) ++ "-" ++ pad2 (dt_month d) ++ "-" ++ pad2 (dt_day d).

Definition strftime_time (d : datetime) : string :=
  pad2 (dt_hour d) ++ ":" ++ pad2 (dt_minute d) ++ ":" ++ pad2 (dt_second d).

Definition strftime_date_time (d : datetime) : string :=
  strftime_date d ++ " " ++ strftime_time d.

(** ** The store: the SQLite file, its backup and the CSV mirror *)

(** A Python value as it appears in a fetched row or a CSV record. *)
Inductive value : Type :=
| VNone
| VInt (n : Z)
| VFloat (x : Q)
| VStr (s : string).

Definition of_float (x : option Q) : value :=
  match x with Some q => VFloat q | None => VNone end.

(** One row of the table [new_probe_logs]. *)
Record row : Type := {
  id : Z;
  date : string;
  time : string;
  router_ip : string;
  router_mac : string;
  interface : string;
  latency : option Q;
  jitter : option Q;
  packet_loss : option Q;
  signal_strength : string;
  download_speed : option Q;
  upload_speed : option Q;
  isp_name : string;
  gw_reach : string;
  interface_ip : string
}.

(** The tuple [SELECT *] yields for a row, in column order. *)
Definition row_values (r : row) : list value :=
  [ VInt (id r); VStr (date r); VStr (time r); VStr (router_ip r);
    VStr (router_mac r); VStr (interface r); of_float (latency r);
    of_float (jitter r); of_float (packet_loss r); VStr (signal_strength r);
    of_float (download_speed r); of_float (upload_speed r);
    VStr (isp_name r); VStr (gw_reach r); VStr (interface_ip r) ].

(** The table with its AUTOINCREMENT counter (the [sqlite_sequence] entry). *)
Record table : Type := {
  t_rows : list row;
  t_seq : Z
}.

(** A database file; [new_probe_logs] is [None] while the table is missing. *)
Record database : Type := {
  new_probe_logs : option table
}.

Definition empty_database : database := {| new_probe_logs := None |}.

(** The three files the program touches: [DB_FILE = "data.db"],
    [BACKUP_FILE = "data_backup.db"] and the CSV mirror
    ["new_probe_logs.csv"], a list of records.  [None] is a file that does
    not exist. *)
Record filesystem : Type := {
  DB_FILE : option database;
  BACKUP_FILE : option database;
  csv_file : option (list (list value))
}.

Definition set_DB_FILE (d : option database) (f : filesystem) : filesystem :=
  {| DB_FILE := d; BACKUP_FILE := BACKUP_FILE f; csv_file := csv_file f |}.

Definition set_BACKUP_FILE (d : option database) (f : filesystem) : filesystem :=
  {| DB_FILE := DB_FILE f; BACKUP_FILE := d; csv_file := csv_file f |}.

Definition set_csv_file (c : option (list (list value))) (f : filesystem) : filesystem :=
  {| DB_FILE := DB_FILE f; BACKUP_FILE := BACKUP_FILE f; csv_file := c |}.

(** ** The outside world *)

(** A command line: [shell=True] with a string, or an argument vector. *)
Inductive command : Type :=
| Shell (line : string)
| Argv (args : list string).

(** The part of an HTTP response [get_isp_name] reads: the status code and
    what [response.json().get("org", ...)] finds ([None]: no such key). *)
Record response : Type := {
  status_code : Z;
  json_org : outcome (option string)
}.

Record World : Type := {
  platform_system : string;
  subprocess_check_output : nat -> command -> outcome string;
  subprocess_run : nat -> command -> outcome unit;
  datetime_now : nat -> datetime;
  (** the UDP socket connected to 8.8.8.8 and its [getsockname()[0]] *)
  socket_local_address : nat -> outcome string;
  (** [psutil.net_if_addrs()]: interface name and its addresses, in order *)
  psutil_net_if_addrs : nat -> outcome (list (string * list string));
  psutil_net_if_stats : nat -> outcome unit;
  (** [Speedtest()], [get_best_server()], [download()], [upload()]: the two
      speeds in bit/s *)
  speedtest_measure : nat -> outcome (Q * Q);
  requests_get : nat -> string -> outcome response;
  (** [re.search(pattern, text, flags)]: the first group of the match; the
      flag is [re.MULTILINE] *)
  re_search : string -> bool -> string -> option string;
  re_findall : string -> string -> list string;
  py_float : string -> outcome Q;
  py_int : string -> outcome Z;
  str_splitlines : string -> list string;
  str_lower : string -> string;
  (** whether the encoding of [sys.stdout] has the check mark and the
      hourglass that lines 277, 316 and 319 print *)
  stdout_encodes_unicode : bool
}.

(** ** The state and the monad of the program *)

Record state : Type := {
  tick : nat;              (* external calls made so far *)
  files : filesystem;
  sleeps : list Z          (* the arguments of [time.sleep], oldest first *)
}.

Definition M (A : Type) : Type := state -> outcome A * state.

Definition ret {A} (a : A) : M A := fun s => (Returns a, s).

Definition raise {A} (e : exn) : M A := fun s => (Raises e, s).

Definition bind {A B} (m : M A) (k : A -> M B) : M B :=
  fun s => match m s with
           | (Returns a, s') => k a s'
           | (Raises e, s') => (Raises e, s')
           end.

(** [try: m except Exception as e: h e] *)
Definition try_except {A} (m : M A) (h : exn -> M A) : M A :=
  fun s => match m s with
           | (Returns a, s') => (Returns a, s')
           | (Raises e, s') => h e s'
           end.

Declare Scope prog_scope.
Delimit Scope prog_scope with prog.
Notation "x <- m ;; k" := (bind m (fun x => k))
  (at level 61, m at next level, right associativity) : prog_scope.
Notation "' pat <- m ;; k" := (bind m (fun x => match x with pat => k end))
  (at level 61, pat pattern, m at next level, right associativity) : prog_scope.
Notation "m ;;; k" := (bind m (fun _ => k))
  (at level 61, right associativity) : prog_scope.
Open Scope prog_scope.

(** An external call: the world answers at the current tick. *)
Definition ask {A} (f : nat -> outcome A) : M A :=
  fun s => (f (tick s),
            {| tick := S (tick s); files := files s; sleeps := sleeps s |}).

(** A value or exception computed without leaving the process. *)
Definition lift {A} (o : outcome A) : M A := fun s => (o, s).

Definition get_files : M filesystem := fun s => (Returns (files s), s).

Definition put_files (f : filesystem) : M unit :=
  fun s => (Returns tt, {| tick := tick s; files := f; sleeps := sleeps s |}).

(** [time.sleep(n)] *)
Definition sleep (n : Z) : M unit :=
  fun s => (Returns tt,
            {| tick := S (tick s); files := files s; sleeps := sleeps s ++ [n] |}).

Fixpoint mapM {A B} (f : A -> outcome B) (l : list A) : outcome (list B) :=
  match l with
  | [] => Returns []
  | a :: l' =>
      match f a with
      | Raises e => Raises e
      | Returns b =>
          match mapM f l' with
          | Raises e => Raises e
          | Returns bs => Returns (b :: bs)
          end
      end
  end.

(** ** The functions of [probe.py] *)

Section Probe.

Variable W : World.

(** [subprocess.check_output(cmd, shell=True)] followed by [.decode()]. *)
Definition check_output_shell (line : string) : M string :=
  ask (fun t => subprocess_check_output W t (Shell line)).

Fixpoint all_str (args : list (option string)) : option (list string) :=
  match args with
  | [] => Some []
  | None :: _ => None
  | Some a :: rest =>
      match all_str rest with
      | Some l => Some (a :: l)
      | None => None
      end
  end.

(** [subprocess.check_output(args)] followed by [.decode()].  An argument
    that is [None] makes [subprocess] raise [TypeError] before any process
    is started. *)
Definition check_output (args : list (option string)) : M string :=
  match all_str args with
  | Some l => ask (fun t => subprocess_check_output W t (Argv l))
  | None => raise TypeError
  end.

(** [sub in s] *)
Definition contains (sub s : string) : bool :=
  match index 0 sub s with Some _ => true | None => false end.

(** lines 21-22 *)
Definition get_current_timestamp : M string :=
  now <- ask (fun t => Returns (datetime_now W t)) ;;
  ret (strftime_date_time now).

Fixpoint find_interface (local_ip_address : string)
    (interfaces : list (string * list string)) : option string :=
  match interfaces with
  | [] => None
  | (iface_name, iface_addresses) :: rest =>
      if existsb (String.eqb local_ip_address) iface_addresses
      then Some iface_name
      else find_interface local_ip_address rest
  end.

(** lines 24-39 *)
Definition get_active_interface : M string :=
  try_except
    (local_ip_address <- ask (socket_local_address W) ;;
     interfaces <- ask (psutil_net_if_addrs W) ;;
     match find_interface local_ip_address interfaces with
     | Some iface_name => ret iface_name
     | None => ret "Unknown"
     end)
    (fun _ => ret "Unknown").

(** lines 41-52: the first definition of [get_default_gateway_ip]. *)
Definition get_default_gateway_ip_line41 : M string :=
  try_except
    (if String.eqb (platform_system W) "Windows" then
       output <- check_output_shell "ipconfig" ;;
       match re_search W "Default Gateway[ .:]*([\d.]+)" false output with
       | Some g => ret g
       | None => ret "unknown"
       end
     else
       output <- check_output_shell "ip route" ;;
       match re_search W "default via ([\d.]+)" false output with
       | Some g => ret g
       | None => ret "unknown"
       end)
    (fun _ => ret "unknown").

(** lines 54-66 *)
Definition get_router_ip : M string :=
  try_except
    (if String.eqb (platform_system W) "Windows" then
       output <- check_output_shell "ipconfig" ;;
       match re_search W "Default Gateway[ .:]*([\d.]+)" false output with
       | Some g => ret g
       | None => ret "unknown"
       end
     else
       output <- check_output_shell "ip route" ;;
       match re_search W "default via ([\d.]+)" false output with
       | Some g => ret g
       | None => ret "unknown"
       end)
    (fun _ => ret "unknown").

(** The loop of lines 73-77.  The pattern is one group around everything, so
    [match.group(0)] is the first group. *)
Fixpoint find_mac (ip : string) (lines : list string) : option string :=
  match lines with
  | [] => None
  | line :: rest =>
      if contains ip line then
        match re_search W "(([0-9a-f]{2}[:-]){5}([0-9a-f]{2}))" false
                (str_lower W line) with
        | Some g => Some g
        | None => find_mac ip rest
        end
      else find_mac ip rest
  end.

(** lines 68-80 *)
Definition get_router_mac (ip : string) : M string :=
  try_except
    (let ping_cmd :=
       if negb (String.eqb (platform_system W) "Windows")
       then "ping -c 1 " ++ ip else "ping -n 1 " ++ ip in
     ask (fun t => subprocess_run W t (Shell ping_cmd)) ;;;
     arp_output <- check_output_shell "arp -a" ;;
     match find_mac ip (str_splitlines W arp_output) with
     | Some g => ret g
     | None => ret "unknown"
     end)
    (fun _ => ret "unknown").

Definition ping_command (ip : option string) (count : Z) : list (option string) :=
  if String.eqb (platform_system W) "Windows"
  then [Some "ping"; Some "-n"; Some (str_of_int count); ip]
  else [Some "ping"; Some "-c"; Some (str_of_int count); ip].

(** lines 82-98; the result is [(latency, packet_loss, jitter)]. *)
Definition ping_router (ip : string) (count : Z)
  : M (option Q * option Q * option Q) :=
  let command := ping_command (Some ip) count in
  try_except
    (output <- check_output command ;;
     times <- lift (mapM (py_float W)
                      (re_findall W "time[=<](\d+(?:\.\d+)?)" output)) ;;
     let latency :=
       match times with
       | [] => None
       | _ :: _ => Some (round2 (statistics_mean times))
       end in
     let jitter :=
       if (1 <? length times)%nat then round2_stdev times else 0%Q in
     packet_loss <- lift (truediv (100 * (count - Z.of_nat (length times))) count) ;;
     ret (latency, Some packet_loss, Some jitter))
    (fun _ => ret (None, None, None)).

(** lines 100-111 *)
Definition get_signal_strength : M string :=
  try_except
    (output <- check_output_shell "netsh wlan show interfaces" ;;
     match re_search W "^\s*Signal\s*:\s*(\d+)%" true output with
     | Some g => n <- lift (py_int W g) ;; ret (str_of_int n ++ "%")
     | None => ret "unknown"
     end)
    (fun e => if is_CalledProcessError e then ret "unknown" else raise e).

(** lines 113-122 *)
Definition get_speedtest : M (option Q * option Q) :=
  try_except
    ('(down, up) <- ask (speedtest_measure W) ;;
     let download_speed := round2 (down / 1000000) in
     let upload_speed := round2 (up / 1000000) in
     ret (Some download_speed, Some upload_speed))
    (fun _ => ret (None, None)).

(** lines 124-135 *)
Definition get_isp_name : M string :=
  try_except
    (response <- ask (fun t => requests_get W t "https://ipinfo.io/json") ;;
     if status_code response =? 200 then
       org <- lift (json_org response) ;;
       match org with
       | Some isp => ret isp
       | None => ret "unknown"
       end
     else ret "unknown")
    (fun _ => ret "unknown").

(** lines 137-177: the second definition of [get_default_gateway_ip]. *)
Definition get_default_gateway_ip : M (option string) :=
  try_except
    (ask (psutil_net_if_stats W) ;;;
     ask (psutil_net_if_addrs W) ;;;
     ask (psutil_net_if_stats W) ;;;
     ask (psutil_net_if_stats W) ;;;
     ask (psutil_net_if_stats W) ;;;
     ask (psutil_net_if_stats W) ;;;
     ret tt)
    (fun _ => ret tt) ;;;
  let system := platform_system W in
  if String.eqb system "Windows" then
    try_except
      (output <- check_output [Some "ipconfig"] ;;
       ret (re_search W "Default Gateway[ .:]*([\d.]+)" false output))
      (fun _ => ret None)
  else if String.eqb system "Linux" || String.eqb system "Darwin" then
    try_except
      (output <- check_output [Some "ip"; Some "route"] ;;
       ret (re_search W "default via ([\d.]+)" false output))
      (fun _ =>
         try_except
           (output <- check_output [Some "route"; Some "-n"] ;;
            ret (re_search W "^0.0.0.0\s+([\d.]+)" true output))
           (fun _ => ret None))
  else ret None.

(** lines 179-193 *)
Definition check_gateway_reachability (ip : option string) (count : Z) : M string :=
  let command := ping_command ip count in
  try_except
    (output <- check_output command ;;
     let received :=
       Z.of_nat (length (re_findall W "time[=<](\d+(?:\.\d+)?)" output)) in
     ratio <- lift (truediv received count) ;;
     let reachability := round_half_even (Qred (ratio * 100)) in
     ret (str_of_int reachability ++ "%"))
    (fun _ => ret "unknown").

(** lines 195-204 *)
Definition get_interface_ip : M string :=
  try_except (ask (socket_local_address W)) (fun _ => ret "unknown").

(** *** The store *)

(** [print] of a text with characters outside ASCII (the check mark of
    lines 277 and 316, the hourglass of line 319): it raises
    [UnicodeEncodeError] when the encoding of [sys.stdout] lacks them. *)
Definition print_unicode : M unit :=
  if stdout_encodes_unicode W then ret tt else raise UnicodeEncodeError.

(** The largest [id] in the table, [0] for an empty one. *)
Definition max_id (rows : list row) : Z :=
  fold_right (fun r m => Z.max (id r) m) 0 rows.

(** [INSERT INTO new_probe_logs (...) VALUES (...)] and [commit]: the new
    row gets an id one above the largest id ever used.  Connecting creates
    the file when it is missing; without the table the statement raises. *)
Definition sqlite_insert (mk : Z -> row) : M unit :=
  fs <- get_files ;;
  let db := match DB_FILE fs with Some d => d | None => empty_database end in
  match new_probe_logs db with
  | None =>
      put_files (set_DB_FILE (Some db) fs) ;;;
      raise OperationalError
  | Some t =>
      let new_id := Z.max (max_id (t_rows t)) (t_seq t) + 1 in
      put_files
        (set_DB_FILE
           (Some {| new_probe_logs :=
                      Some {| t_rows := t_rows t ++ [mk new_id];
                              t_seq := new_id |} |})
           fs)
  end.

(** lines 206-220.  The parameter [timestamp] is not used by the body. *)
Definition log_to_db (timestamp router_ip router_mac : string)
    (latency packet_loss jitter : option Q) (signal_strength : string)
    (download_speed upload_speed : option Q)
    (isp_name gw_reach interface_ip : string) : M unit :=
  interface <- get_active_interface ;;
  now <- ask (fun t => Returns (datetime_now W t)) ;;
  let date := strftime_date now in
  let time_str := strftime_time now in
  sqlite_insert (fun new_id =>
    {| id := new_id; date := date; time := time_str;
       router_ip := router_ip; router_mac := router_mac;
       interface := interface; latency := latency; jitter := jitter;
       packet_loss := packet_loss; signal_strength := signal_strength;
       download_speed := download_speed; upload_speed := upload_speed;
       isp_name := isp_name; gw_reach := gw_reach;
       interface_ip := interface_ip |}).

(** [CREATE TABLE IF NOT EXISTS new_probe_logs (...)] *)
Definition create_table_if_not_exists (db : database) : database :=
  match new_probe_logs db with
  | Some _ => db
  | None => {| new_probe_logs := Some {| t_rows := []; t_seq := 0 |} |}
  end.

(** lines 222-250 *)
Definition initialize_database : M unit :=
  fs <- get_files ;;
  (match DB_FILE fs with
   | Some d => put_files (set_BACKUP_FILE (Some d) fs)      (* shutil.copy *)
   | None => ret tt
   end) ;;;
  fs <- get_files ;;
  let db := match DB_FILE fs with Some d => d | None => empty_database end in
  put_files (set_DB_FILE (Some (create_table_if_not_exists db)) fs).

(** [SELECT * FROM new_probe_logs ORDER BY id DESC LIMIT 1] *)
Fixpoint latest (rows : list row) : option row :=
  match rows with
  | [] => None
  | r :: rest =>
      match latest rest with
      | Some r' => if id r <? id r' then Some r' else Some r
      | None => Some r
      end
  end.

Definition csv_header : list value :=
  map VStr
    [ "ID"; "Date"; "Time"; "Router IP"; "Router MAC";
      "Interface"; "Latency"; "Jitter"; "Packet Loss";
      "Signal Strength"; "Download Speed"; "Upload Speed";
      "ISP Name"; "Gateway Reachability"; "Interface IP" ].

(** lines 252-277, at the default arguments [db_path="data.db"] and
    [csv_path="new_probe_logs.csv"] with which [main] calls it. *)
Definition export_to_csv : M unit :=
  fs <- get_files ;;
  match DB_FILE fs with
  | None => ret tt
  | Some db =>
      match new_probe_logs db with
      | None => raise OperationalError
      | Some t =>
          let row := latest (t_rows t) in
          let (file_exists, old) :=
            match csv_file fs with
            | Some records => (true, records)
            | None => (false, [])
            end in
          let with_header :=
            if negb file_exists then (old ++ [csv_header])%list else old in
          let with_row :=
            match row with
            | Some r => (with_header ++ [row_values r])%list
            | None => with_header
            end in
          put_files (set_csv_file (Some with_row) fs) ;;;
          print_unicode                                    (* line 277 *)
      end
  end.

(** *** The collection loop *)

(** The module binds its names in the order of the [def] statements; a name
    bound twice refers to the later function.  Each entry is a name with the
    line of its [def]. *)
Definition module_defs : list (string * nat) :=
  [ ("get_current_timestamp", 21%nat); ("get_active_interface", 24%nat);
    ("get_default_gateway_ip", 41%nat); ("get_router_ip", 54%nat);
    ("get_router_mac", 68%nat); ("ping_router", 82%nat);
    ("get_signal_strength", 100%nat); ("get_speedtest", 113%nat);
    ("get_isp_name", 124%nat); ("get_default_gateway_ip", 137%nat);
    ("check_gateway_reachability", 179%nat); ("get_interface_ip", 195%nat);
    ("log_to_db", 206%nat); ("initialize_database", 222%nat);
    ("export_to_csv", 252%nat); ("main", 279%nat) ].

Fixpoint binding (name : string) (defs : list (string * nat)) : option nat :=
  match defs with
  | [] => None
  | (n, line) :: rest =>
      match binding name rest with
      | Some later => Some later
      | None => if String.eqb n name then Some line else None
      end
  end.

(** The call [get_default_gateway_ip()] of line 286, resolved when [main]
    runs.  The first definition yields a string, never [None]. *)
Definition call_get_default_gateway_ip : M (option string) :=
  match binding "get_default_gateway_ip" module_defs with
  | Some 41%nat => g <- get_default_gateway_ip_line41 ;; ret (Some g)
  | Some 137%nat => get_default_gateway_ip
  | _ => raise (OtherError "NameError")
  end.

(** What lines 286-296 collect in one cycle. *)
Record measurements : Type := {
  m_gateway_ip : option string;
  m_timestamp : string;
  m_router_ip : string;
  m_router_id : string;
  m_latency : option Q;
  m_packet_loss : option Q;
  m_jitter : option Q;
  m_signal_strength : string;
  m_download_speed : option Q;
  m_upload_speed : option Q;
  m_isp_name : string;
  m_gw_reach : string;
  m_interface_ip : string
}.

(** lines 286-296 *)
Definition collect : M measurements :=
  gateway_ip <- call_get_default_gateway_ip ;;
  timestamp <- get_current_timestamp ;;
  router_ip <- get_router_ip ;;
  router_id <- get_router_mac router_ip ;;
  '(latency, packet_loss, jitter) <- ping_router router_ip 10 ;;
  signal_strength <- get_signal_strength ;;
  '(download_speed, upload_speed) <- get_speedtest ;;
  isp_name <- get_isp_name ;;
  gw_reach <- check_gateway_reachability gateway_ip 10 ;;
  interface_ip <- get_interface_ip ;;
  ret {| m_gateway_ip := gateway_ip; m_timestamp := timestamp;
         m_router_ip := router_ip; m_router_id := router_id;
         m_latency := latency; m_packet_loss := packet_loss;
         m_jitter := jitter; m_signal_strength := signal_strength;
         m_download_speed := download_speed;
         m_upload_speed := upload_speed; m_isp_name := isp_name;
         m_gw_reach := gw_reach; m_interface_ip := interface_ip |}.

(** How one pass through the loop body ends. *)
Inductive cycle_end : Type :=
| Skipped      (* line 300, [continue] *)
| Recorded.    (* line 320 *)

(** [print(f"... {packet_loss:.2f}%")], line 306: formatting [None] with
    [.2f] raises [TypeError]. *)
Definition format_2f (x : option Q) : M unit :=
  match x with
  | Some _ => ret tt
  | None => raise TypeError
  end.

(** lines 297-320 *)
Definition record_or_skip (m : measurements) : M cycle_end :=
  match m_latency m with
  | None =>
      sleep 50 ;;;
      ret Skipped
  | Some _ =>
      format_2f (m_packet_loss m) ;;;
      log_to_db (m_timestamp m) (m_router_ip m) (m_router_id m)
        (m_latency m) (m_packet_loss m) (m_jitter m) (m_signal_strength m)
        (m_download_speed m) (m_upload_speed m) (m_isp_name m)
        (m_gw_reach m) (m_interface_ip m) ;;;
      print_unicode ;;;                                    (* line 316 *)
      export_to_csv ;;;
      print_unicode ;;;                                    (* line 319 *)
      sleep 300 ;;;
      ret Recorded
  end.

(** One pass through the body of [while True], lines 284-320. *)
Definition main_iteration : M cycle_end :=
  m <- collect ;;
  record_or_skip m.

Fixpoint iterations (n : nat) : M unit :=
  match n with
  | O => ret tt
  | S n' => main_iteration ;;; iterations n'
  end.

(** [main], lines 279-323, observed for [n] passes through the loop. *)
Definition main (n : nat) : M unit :=
  initialize_database ;;;
  iterations n.

End Probe.

(** ** A concrete world, for running the model *)

Definition demo_float (s : string) : outcome Q :=
  match NilZero.int_of_string s with
  | Some d => Returns (inject_Z (Z.of_int d))
  | None => Raises ValueError
  end.

Definition demo_int (s : string) : outcome Z :=
  match NilZero.int_of_string s with
  | Some d => Returns (Z.of_int d)
  | None => Raises ValueError
  end.

Definition demo_check_output (route ping : outcome string) (c : command)
  : outcome string :=
  match c with
  | Argv ("ping" :: _) => ping
  | Argv ["ip"; "route"] => route
  | Shell line =>
      if String.eqb line "ip route" then route
      else if String.eqb line "arp -a"
      then Returns "? (192.168.1.1) at aa:bb:cc:dd:ee:ff [ether] on wlan0"
      else Raises CalledProcessError
  | _ => Raises OSError
  end.

Definition demo_search (pattern : string) (multiline : bool) (text : string)
  : option string :=
  if String.eqb pattern "default via ([\d.]+)" then
    if prefix "default via 192.168.1.1" text then Some "192.168.1.1" else None
  else if String.eqb pattern "(([0-9a-f]{2}[:-]){5}([0-9a-f]{2}))" then
    if contains "aa:bb:cc:dd:ee:ff" text then Some "aa:bb:cc:dd:ee:ff" else None
  else None.

Definition demo_findall (pattern text : string) : list string :=
  if String.eqb text "3 of 10 replied" then ["20"; "22"; "21"]
  else if String.eqb text "10 of 10 replied"
  then ["10"; "12"; "11"; "13"; "14"; "10"; "11"; "12"; "13"; "11"]
  else if String.eqb text "1 of 10 replied" then ["7"]
  else [].

(** A Linux host on a wireless LAN; [route] is what [ip route] does and
    [ping] what every [ping] does.  The clock advances one second per
    external call. *)
Definition demo_world (route ping : outcome string) : World :=
  {| platform_system := "Linux";
     subprocess_check_output := fun _ => demo_check_output route ping;
     subprocess_run := fun _ _ => Returns tt;
     datetime_now := fun t =>
       {| dt_year := 2024; dt_month := 5; dt_day := 17;
          dt_hour := 12; dt_minute := 0; dt_second := t |};
     socket_local_address := fun _ => Returns "192.168.1.23";
     psutil_net_if_addrs := fun _ =>
       Returns [("lo", ["127.0.0.1"]); ("wlan0", ["192.168.1.23"])];
     psutil_net_if_stats := fun _ => Returns tt;
     speedtest_measure := fun _ => Returns (93456789 # 1, 11234567 # 1)%Q;
     requests_get := fun _ _ =>
       Returns {| status_code := 200;
                  json_org := Returns (Some "AS64500 Example Net") |};
     re_search := demo_search;
     re_findall := demo_findall;
     py_float := demo_float;
     py_int := demo_int;
     str_splitlines := fun s => [s];
     str_lower := fun s => s;
     stdout_encodes_unicode := true |}.

Definition route_ok : outcome string :=
  Returns "default via 192.168.1.1 dev wlan0 proto dhcp".

Definition no_files : filesystem :=
  {| DB_FILE := None; BACKUP_FILE := None; csv_file := None |}.

Definition boot (fs : filesystem) : state :=
  {| tick := 0; files := fs; sleeps := [] |}.

(** ** Vocabulary of the statements *)

(** The rows of the sample table; none while the file or the table is
    missing. *)
Definition store_rows (fs : filesystem) : list row :=
  match DB_FILE fs with
  | Some db =>
      match new_probe_logs db with
      | Some t => t_rows t
      | None => []
      end
  | None => []
  end.

(** The data file exists and holds the sample table. *)
Definition table_ready (fs : filesystem) : Prop :=
  exists t, DB_FILE fs = Some {| new_probe_logs := Some t |}.

(** The records of the mirror if the next export finds it missing or as
    [csv_file]: the header is written only for a missing file. *)
Definition opened_for_append (c : option (list (list value))) : list (list value) :=
  match c with
  | Some records => records
  | None => [csv_header]
  end.

(** The mirror, when it exists, is the header followed by data records, none
    of which is the header, and no more of them than the store has rows. *)
Definition mirror_ok (fs : filesystem) : Prop :=
  match csv_file fs with
  | None => True
  | Some records =>
      exists data,
        records = csv_header :: data /\
        Forall (fun d => d <> csv_header) data /\
        (length data <= length (store_rows fs))%nat
  end.

(** A row with all three probe statistics. *)
Definition complete_statistics (r : row) : Prop :=
  latency r <> None /\ jitter r <> None /\ packet_loss r <> None.

(** [m] never raises. *)
Definition safe {A} (m : M A) : Prop :=
  forall s, exists a s', m s = (Returns a, s').

(** [m] leaves the files and the record of sleeps alone. *)
Definition quiet {A} (m : M A) : Prop :=
  forall s, files (snd (m s)) = files s /\ sleeps (snd (m s)) = sleeps s.

(** [r] is [x] rounded to two decimals: a whole number of hundredths at most
    half a hundredth away from [x]. *)
Definition rounded_to_2_decimals (x r : Q) : Prop :=
  ((exists h : Z, r == h # 100) /\ Qabs (r - x) <= 1 # 200)%Q.

(** [j] is the square root of [v] rounded to two decimals, said without the
    root: [j] is a whole number of hundredths, [j >= 0], and
    [j - 1/200 <= sqrt v <= j + 1/200]. *)
Definition sqrt_rounded_to_2_decimals (v j : Q) : Prop :=
  ((exists h : Z, j == h # 100) /\
   0 <= j /\
   (j == 0 \/ (j - (1 # 200)) * (j - (1 # 200)) <= v) /\
   v <= (j + (1 # 200)) * (j + (1 # 200)))%Q.

(** The arithmetic mean and the sample variance of a series, as the spec
    words them. *)
Definition arithmetic_mean (l : list Q) : Q :=
  (Qsum l / inject_Z (Z.of_nat (length l)))%Q.

Definition sample_variance (l : list Q) : Q :=
  (Qsum (map (fun x => (x - arithmetic_mean l) * (x - arithmetic_mean l)) l)
   / (inject_Z (Z.of_nat (length l)) - 1))%Q.

(** The reply times [ping_router] reads out of the output of [ping]. *)
Definition reply_times (W : World) (output : string) : outcome (list Q) :=
  mapM (py_float W) (re_findall W "time[=<](\d+(?:\.\d+)?)" output).

(** The row [log_to_db] inserts for the measurements [m]: the id comes from
    the table, the interface and the clock reading from [log_to_db]'s own
    calls. *)
Definition sample_row (m : measurements) (new_id : Z) (iface : string)
    (now : datetime) : row :=
  {| id := new_id; date := strftime_date now; time := strftime_time now;
     router_ip := m_router_ip m; router_mac := m_router_id m;
     interface := iface; latency := m_latency m; jitter := m_jitter m;
     packet_loss := m_packet_loss m;
     signal_strength := m_signal_strength m;
     download_speed := m_download_speed m;
     upload_speed := m_upload_speed m; isp_name := m_isp_name m;
     gw_reach := m_gw_reach m; interface_ip := m_interface_ip m |}.

(** The id [INSERT] gives the next row of a table. *)
Definition next_id (t : table) : Z := Z.max (max_id (t_rows t)) (t_seq t) + 1.

(** [m] never turns the count of external calls back. *)
Definition ticks_up {A} (m : M A) : Prop :=
  forall s, (tick s <= tick (snd (m s)))%nat.


(** A host on which the socket, the speed test and the HTTP lookup all fail,
    and which is otherwise [W]. *)
Definition without_collaborators (W : World) : World :=
  {| platform_system := platform_system W;
     subprocess_check_output := subprocess_check_output W;
     subprocess_run := subprocess_run W;
     datetime_now := datetime_now W;
     socket_local_address := fun _ => Raises OSError;
     psutil_net_if_addrs := psutil_net_if_addrs W;
     psutil_net_if_stats := psutil_net_if_stats W;
     speedtest_measure := fun _ => Raises (OtherError "SpeedtestException");
     requests_get := fun _ _ => Raises (OtherError "ConnectionError");
     re_search := re_search W;
     re_findall := re_findall W;
     py_float := py_float W;
     py_int := py_int W;
     str_splitlines := str_splitlines W;
     str_lower := str_lower W;
     stdout_encodes_unicode := stdout_encodes_unicode W |}.


(** A host on which every reply takes the same five milliseconds, and which
    is otherwise [W]. *)
Definition with_steady_replies (W : World) : World :=
  {| platform_system := platform_system W;
     subprocess_check_output := subprocess_check_output W;
     subprocess_run := subprocess_run W;
     datetime_now := datetime_now W;
     socket_local_address := socket_local_address W;
     psutil_net_if_addrs := psutil_net_if_addrs W;
     psutil_net_if_stats := psutil_net_if_stats W;
     speedtest_measure := speedtest_measure W;
     requests_get := requests_get W;
     re_search := re_search W;
     re_findall := fun _ _ => ["5"; "5"; "5"; "5"];
     py_float := py_float W;
     py_int := py_int W;
     str_splitlines := str_splitlines W;
     str_lower := str_lower W;
     stdout_encodes_unicode := stdout_encodes_unicode W |}.


(** No strategy of the gateway lookup of line 137 parses a default gateway:
    whenever one of its three commands returns output, the pattern applied
    to that output finds nothing. *)
Definition nothing_parsed (W : World) : Prop :=
  (forall t output,
      subprocess_check_output W t (Argv ["ipconfig"]) = Returns output ->
      re_search W "Default Gateway[ .:]*([\d.]+)" false output = None) /\
  (forall t output,
      subprocess_check_output W t (Argv ["ip"; "route"]) = Returns output ->
      re_search W "default via ([\d.]+)" false output = None) /\
  (forall t output,
      subprocess_check_output W t (Argv ["route"; "-n"]) = Returns output ->
      re_search W "^0.0.0.0\s+([\d.]+)" true output = None).

(** * Properties *)

(** ** The monad *)

Lemma bind_returns {A B} (m : M A) (k : A -> M B) s b s2 :
  bind m k s = (Returns b, s2) ->
  exists a s1, m s = (Returns a, s1) /\ k a s1 = (Returns b, s2).
Proof.
  unfold bind. destruct (m s) as [[a|e] s1]; intros H.
  - exists a, s1. split; [reflexivity | exact H].
  - discriminate H.
Qed.

Lemma bind_step {A B} (m : M A) (k : A -> M B) s a s1 :
  m s = (Returns a, s1) -> bind m k s = k a s1.
Proof. unfold bind. intros ->. reflexivity. Qed.

Lemma bind_raises {A B} (m : M A) (k : A -> M B) s e s1 :
  m s = (Raises e, s1) -> bind m k s = (Raises e, s1).
Proof. unfold bind. intros ->. reflexivity. Qed.

Lemma safe_ret {A} (a : A) : safe (ret a).
Proof. intros s. exists a, s. reflexivity. Qed.

Lemma safe_bind {A B} (m : M A) (k : A -> M B) :
  safe m -> (forall a, safe (k a)) -> safe (bind m k).
Proof.
  intros Hm Hk s. destruct (Hm s) as (a & s1 & E).
  rewrite (bind_step _ _ _ _ _ E). apply Hk.
Qed.

Lemma safe_try {A} (m : M A) (h : exn -> M A) :
  (forall e, safe (h e)) -> safe (try_except m h).
Proof.
  intros Hh s. unfold try_except.
  destruct (m s) as [[a|e] s1].
  - exists a, s1. reflexivity.
  - apply Hh.
Qed.

Lemma quiet_ret {A} (a : A) : quiet (ret a).
Proof. intros s. split; reflexivity. Qed.

Lemma quiet_raise {A} (e : exn) : quiet (@raise A e).
Proof. intros s. split; reflexivity. Qed.

Lemma quiet_ask {A} (f : nat -> outcome A) : quiet (ask f).
Proof. intros s. split; reflexivity. Qed.

Lemma quiet_lift {A} (o : outcome A) : quiet (lift o).
Proof. intros s. split; reflexivity. Qed.

Lemma quiet_bind {A B} (m : M A) (k : A -> M B) :
  quiet m -> (forall a, quiet (k a)) -> quiet (bind m k).
Proof.
  intros Hm Hk s. unfold bind. specialize (Hm s).
  destruct (m s) as [[a|e] s1]; simpl in *.
  - destruct (Hk a s1) as [F S]. rewrite F, S. exact Hm.
  - exact Hm.
Qed.

Lemma quiet_try {A} (m : M A) (h : exn -> M A) :
  quiet m -> (forall e, quiet (h e)) -> quiet (try_except m h).
Proof.
  intros Hm Hh s. unfold try_except. specialize (Hm s).
  destruct (m s) as [[a|e] s1]; simpl in *.
  - exact Hm.
  - destruct (Hh e s1) as [F S]. rewrite F, S. exact Hm.
Qed.

Create HintDb quiet.
#[export] Hint Resolve quiet_ret quiet_raise quiet_ask quiet_lift : quiet.
Create HintDb safe.
#[export] Hint Resolve safe_ret : safe.

(** Walks through a program built from the combinators, splitting on every
    test it meets. *)
Ltac quiet_walk :=
  repeat first
    [ progress cbv zeta
    | solve [auto with quiet]
    | apply quiet_bind
    | apply quiet_try
    | match goal with
      | |- forall _, _ => intro
      | |- quiet (match ?x with _ => _ end) => destruct x
      | |- quiet (if ?b then _ else _) => destruct b
      end ].

Ltac safe_walk :=
  repeat first
    [ progress cbv zeta
    | solve [auto with safe]
    | apply safe_try
    | apply safe_bind
    | match goal with
      | |- forall _, _ => intro
      | |- safe (match ?x with _ => _ end) => destruct x
      | |- safe (if ?b then _ else _) => destruct b
      end ].

Section Effects.

Variable W : World.

Lemma quiet_check_output args : quiet (check_output W args).
Proof. unfold check_output. quiet_walk. Qed.

Lemma quiet_check_output_shell line : quiet (check_output_shell W line).
Proof. unfold check_output_shell. quiet_walk. Qed.

Hint Resolve quiet_check_output quiet_check_output_shell : quiet.

Lemma quiet_get_current_timestamp : quiet (get_current_timestamp W).
Proof. unfold get_current_timestamp. quiet_walk. Qed.

Lemma quiet_get_active_interface : quiet (get_active_interface W).
Proof. unfold get_active_interface. quiet_walk. Qed.

Lemma quiet_get_default_gateway_ip_line41 : quiet (get_default_gateway_ip_line41 W).
Proof. unfold get_default_gateway_ip_line41. quiet_walk. Qed.

Lemma quiet_get_router_ip : quiet (get_router_ip W).
Proof. unfold get_router_ip. quiet_walk. Qed.

Lemma quiet_get_router_mac ip : quiet (get_router_mac W ip).
Proof. unfold get_router_mac. quiet_walk. Qed.

Lemma quiet_ping_router ip count : quiet (ping_router W ip count).
Proof. unfold ping_router. quiet_walk. Qed.

Lemma quiet_get_signal_strength : quiet (get_signal_strength W).
Proof. unfold get_signal_strength. quiet_walk. Qed.

Lemma quiet_get_speedtest : quiet (get_speedtest W).
Proof. unfold get_speedtest. quiet_walk. Qed.

Lemma quiet_get_isp_name : quiet (get_isp_name W).
Proof. unfold get_isp_name. quiet_walk. Qed.

Lemma quiet_get_default_gateway_ip : quiet (get_default_gateway_ip W).
Proof. unfold get_default_gateway_ip. quiet_walk. Qed.

Lemma quiet_check_gateway_reachability ip count :
  quiet (check_gateway_reachability W ip count).
Proof. unfold check_gateway_reachability. quiet_walk. Qed.

Lemma quiet_get_interface_ip : quiet (get_interface_ip W).
Proof. unfold get_interface_ip. quiet_walk. Qed.

End Effects.

(** ** Rounding *)

Lemma round_half_even_close (x : Q) :
  (Qabs (inject_Z (round_half_even x) - x) <= 1 # 2)%Q.
Proof.
  unfold round_half_even.
  pose proof (Qfloor_le x) as Hlo.
  pose proof (Qlt_floor x) as Hhi.
  rewrite inject_Z_plus in Hhi. change (inject_Z 1) with 1%Q in Hhi.
  apply Qabs_Qle_condition.
  destruct (Qcompare_spec (x - inject_Z (Qfloor x)) (1 # 2)) as [E|L|G];
    [ destruct (Z.even (Qfloor x)) | | ];
    rewrite ?inject_Z_plus; change (inject_Z 1) with 1%Q; lra.
Qed.

Lemma hundredths_as_product (h : Z) : (h # 100 == inject_Z h * (1 # 100))%Q.
Proof. unfold Qeq, Qmult, inject_Z. simpl. lia. Qed.

Lemma round2_rounds (x : Q) : rounded_to_2_decimals x (round2 x).
Proof.
  unfold rounded_to_2_decimals, round2. split.
  - exists (round_half_even (x * 100)). apply Qred_correct.
  - rewrite Qred_correct, hundredths_as_product.
    pose proof (round_half_even_close (x * 100)) as H.
    apply Qabs_Qle_condition in H. apply Qabs_Qle_condition.
    set (z := inject_Z (round_half_even (x * 100))) in *.
    lra.
Qed.

(** Where the integer square root puts the half-integers: with
    [s = Z.sqrt X], the nearest integer to [sqrt X / 2] is [s / 2] for an
    even [s] and [s / 2 + 1] for an odd one. *)
Lemma sqrt_even_bounds (X : Z) :
  Z.even (Z.sqrt X) = true ->
  let n := Z.sqrt X / 2 in
  0 <= n /\ (n = 0 \/ (2 * n - 1) * (2 * n - 1) <= X) /\
  X < (2 * n + 1) * (2 * n + 1).
Proof.
  intros Hev n. subst n.
  apply Z.even_spec in Hev. destruct Hev as [m Hm].
  pose proof (Z.sqrt_nonneg X) as Hs.
  destruct (Z.lt_ge_cases X 0) as [Hneg|Hpos].
  - rewrite (Z.sqrt_neg X Hneg). change (0 / 2) with 0. lia.
  - pose proof (Z.sqrt_spec X Hpos) as [Hlo Hhi].
    rewrite Hm in *. rewrite (Z.mul_comm 2 m), Z.div_mul by lia.
    repeat split; [lia | | nia].
    destruct (Z.eq_dec m 0) as [->|Hnz]; [left; reflexivity | right; nia].
Qed.

Lemma sqrt_odd_bounds (X : Z) :
  Z.even (Z.sqrt X) = false ->
  let s := Z.sqrt X in
  let n := s / 2 in
  0 <= n /\ s = 2 * n + 1 /\ s * s <= X /\ X < (2 * n + 2) * (2 * n + 2).
Proof.
  intros Hev s n. subst s n.
  rewrite <- Z.negb_odd in Hev. apply negb_false_iff in Hev.
  apply Z.odd_spec in Hev. destruct Hev as [m Hm].
  pose proof (Z.sqrt_nonneg X) as Hs.
  destruct (Z.lt_ge_cases X 0) as [Hneg|Hpos].
  - rewrite (Z.sqrt_neg X Hneg) in Hm. lia.
  - pose proof (Z.sqrt_spec X Hpos) as [Hlo Hhi].
    assert (Hd : Z.sqrt X / 2 = m).
    { rewrite Hm, (Z.mul_comm 2 m), Z.div_add_l by lia.
      change (1 / 2) with 0. lia. }
    rewrite Hd. rewrite Hm in *. repeat split; [lia | nia | nia].
Qed.

Lemma round2_sqrt_rounds (v : Q) :
  sqrt_rounded_to_2_decimals v (Qred (round2_sqrt_hundredths v # 100)).
Proof.
  unfold sqrt_rounded_to_2_decimals. split.
  { exists (round2_sqrt_hundredths v). apply Qred_correct. }
  rewrite Qred_correct, hundredths_as_product.
  unfold round2_sqrt_hundredths.
  set (x := (v * 40000)%Q).
  pose proof (Qfloor_le x) as Hlo.
  pose proof (Qlt_floor x) as Hhi.
  rewrite inject_Z_plus in Hhi. change (inject_Z 1) with 1%Q in Hhi.
  set (X := Qfloor x) in *.
  destruct (Z.even (Z.sqrt X)) eqn:Hev.
  - destruct (sqrt_even_bounds X Hev) as (Hn & Hb & Hc).
    set (n := Z.sqrt X / 2) in *.
    assert (Hn' : (0 <= inject_Z n)%Q) by (rewrite Zle_Qle in Hn; exact Hn).
    assert (Hc' : (inject_Z X + 1 <= inject_Z ((2 * n + 1) * (2 * n + 1)))%Q).
    { change 1%Q with (inject_Z 1). rewrite <- inject_Z_plus, <- Zle_Qle. lia. }
    rewrite inject_Z_mult, inject_Z_plus, inject_Z_mult in Hc'.
    change (inject_Z 2) with 2%Q in Hc'. change (inject_Z 1) with 1%Q in Hc'.
    unfold x in *. split; [lra | split; [ | nra]].
    destruct Hb as [-> | Hb]; [left; reflexivity | right].
    rewrite Zle_Qle in Hb.
    unfold Z.sub in Hb.
    rewrite inject_Z_mult, inject_Z_plus, inject_Z_mult, inject_Z_opp in Hb.
    change (inject_Z 2) with 2%Q in Hb. change (inject_Z 1) with 1%Q in Hb.
    nra.
  - destruct (sqrt_odd_bounds X Hev) as (Hn & Hs & Hb & Hc).
    set (n := Z.sqrt X / 2) in *.
    assert (Hn' : (0 <= inject_Z n)%Q) by (rewrite Zle_Qle in Hn; exact Hn).
    assert (Hc' : (inject_Z X + 1 <= inject_Z ((2 * n + 2) * (2 * n + 2)))%Q).
    { change 1%Q with (inject_Z 1). rewrite <- inject_Z_plus, <- Zle_Qle. lia. }
    rewrite inject_Z_mult, inject_Z_plus, inject_Z_mult in Hc'.
    change (inject_Z 2) with 2%Q in Hc'.
    rewrite Hs in Hb. rewrite Zle_Qle in Hb.
    rewrite inject_Z_mult, inject_Z_plus, inject_Z_mult in Hb.
    change (inject_Z 2) with 2%Q in Hb. change (inject_Z 1) with 1%Q in Hb.
    assert (Hup : (0 <= inject_Z (n + 1) * (1 # 100) /\
                   (inject_Z (n + 1) * (1 # 100) - (1 # 200)) *
                   (inject_Z (n + 1) * (1 # 100) - (1 # 200)) <= v /\
                   v <= (inject_Z (n + 1) * (1 # 100) + (1 # 200)) *
                        (inject_Z (n + 1) * (1 # 100) + (1 # 200)))%Q).
    { rewrite inject_Z_plus. change (inject_Z 1) with 1%Q.
      unfold x in *. repeat split; [lra | nra | nra]. }
    destruct (Qeq_bool x (inject_Z (Z.sqrt X * Z.sqrt X))) eqn:Htie.
    + destruct (Z.even n).
      * apply Qeq_bool_iff in Htie. rewrite Hs in Htie.
        rewrite inject_Z_mult, inject_Z_plus, inject_Z_mult in Htie.
        change (inject_Z 2) with 2%Q in Htie.
        change (inject_Z 1) with 1%Q in Htie.
        unfold x in *. split; [lra | split; [right; nra | nra]].
      * destruct Hup as (H1 & H2 & H3).
        split; [exact H1 | split; [right; exact H2 | exact H3]].
    + destruct Hup as (H1 & H2 & H3).
      split; [exact H1 | split; [right; exact H2 | exact H3]].
Qed.

(** ** The statistics library against the spec's words *)

Lemma statistics_mean_is_mean (l : list Q) :
  (statistics_mean l == arithmetic_mean l)%Q.
Proof. apply Qred_correct. Qed.

Lemma squared_deviations_wd (m m' : Q) (l : list Q) :
  (m == m')%Q ->
  (Qsum (map (fun x => (x - m) * (x - m)) l) ==
   Qsum (map (fun x => (x - m') * (x - m')) l))%Q.
Proof.
  intros E. induction l as [|a l IH]; simpl.
  - reflexivity.
  - rewrite IH, E. reflexivity.
Qed.

Lemma statistics_variance_is_variance (l : list Q) :
  (statistics_variance l == sample_variance l)%Q.
Proof.
  unfold statistics_variance, sample_variance.
  rewrite Qred_correct.
  rewrite (squared_deviations_wd _ _ l (statistics_mean_is_mean l)).
  unfold Z.sub. rewrite inject_Z_plus. reflexivity.
Qed.

Lemma rounded_to_2_decimals_wd (x x' r : Q) :
  (x == x')%Q -> rounded_to_2_decimals x r -> rounded_to_2_decimals x' r.
Proof.
  intros E [H1 H2]. split; [exact H1 | rewrite <- E; exact H2].
Qed.

Lemma sqrt_rounded_to_2_decimals_wd (v v' j : Q) :
  (v == v')%Q -> sqrt_rounded_to_2_decimals v j -> sqrt_rounded_to_2_decimals v' j.
Proof.
  intros E (H1 & H2 & H3 & H4).
  split; [exact H1 | split; [exact H2 | split]].
  - destruct H3 as [H3|H3]; [left; exact H3 | right; rewrite <- E; exact H3].
  - rewrite <- E. exact H4.
Qed.

(** ** The prober *)

Section Prober.

Variable W : World.

(** What lines 92-93 make of a series. *)
Lemma ping_router_parsed ip count s output s1 times :
  check_output W (ping_command W (Some ip) count) s = (Returns output, s1) ->
  reply_times W output = Returns times ->
  count <> 0 ->
  ping_router W ip count s =
  (Returns
     (match times with
      | [] => None
      | _ :: _ => Some (round2 (statistics_mean times))
      end,
      Some (Qred (inject_Z (100 * (count - Z.of_nat (length times)))
                  / inject_Z count)),
      Some (if (1 <? length times)%nat then round2_stdev times else 0%Q)),
   s1).
Proof.
  intros Hout Htimes Hcount.
  unfold ping_router, try_except.
  rewrite (bind_step _ _ _ _ _ Hout).
  unfold reply_times in Htimes. rewrite Htimes.
  unfold bind, lift, truediv.
  destruct (Z.eqb_spec count 0) as [E|_]; [contradiction | reflexivity].
Qed.

Lemma ping_router_error ip count s e s1 :
  check_output W (ping_command W (Some ip) count) s = (Raises e, s1) ->
  ping_router W ip count s = (Returns (None, None, None), s1).
Proof.
  intros Hout. unfold ping_router, try_except.
  rewrite (bind_raises _ _ _ _ _ Hout). reflexivity.
Qed.

(** Whatever happens, the result is all [None], or packet loss and jitter
    are both there. *)
Lemma ping_router_shape ip count s :
  exists l p j s1,
    ping_router W ip count s = (Returns (l, p, j), s1) /\
    ((l = None /\ p = None /\ j = None) \/
     (exists p' j', p = Some p' /\ j = Some j')).
Proof.
  destruct (check_output W (ping_command W (Some ip) count) s)
    as [[output|e] s1] eqn:Hout.
  - unfold ping_router, try_except.
    rewrite (bind_step _ _ _ _ _ Hout).
    unfold bind, lift.
    destruct (mapM (py_float W) _) as [times|e].
    + destruct (truediv _ count) as [p|e].
      * eexists _, _, _, _. split; [reflexivity|].
        right. eexists _, _. split; reflexivity.
      * exists None, None, None, s1. split; [reflexivity|].
        left. repeat split.
    + exists None, None, None, s1. split; [reflexivity|].
      left. repeat split.
  - exists None, None, None, s1. split; [apply (ping_router_error _ _ _ _ _ Hout)|].
    left. repeat split.
Qed.

Lemma safe_ping_router ip count : safe (ping_router W ip count).
Proof.
  intros s. destruct (ping_router_shape ip count s) as (l & p & j & s1 & E & _).
  exists (l, p, j), s1. exact E.
Qed.

End Prober.

(** ** Latency and jitter *)

(** C2.  When [ping] ran (with a count other than zero) and its output was
    parsed into the series [times], [ping_router] returns a latency that is
    absent exactly when the series is empty and otherwise is the arithmetic
    mean of the series rounded to two decimals, and a jitter that is the
    sample standard deviation rounded to two decimals for a series of two or
    more replies and exactly [0.0] for a shorter one. *)
Theorem probe_latency_and_jitter (W : World) ip count s output s1 times :
  check_output W (ping_command W (Some ip) count) s = (Returns output, s1) ->
  reply_times W output = Returns times ->
  count <> 0 ->
  exists latency packet_loss jitter,
    ping_router W ip count s = (Returns (latency, packet_loss, Some jitter), s1) /\
    (latency = None <-> times = []) /\
    (forall l, latency = Some l ->
               rounded_to_2_decimals (arithmetic_mean times) l) /\
    ((2 <= length times)%nat ->
     sqrt_rounded_to_2_decimals (sample_variance times) jitter) /\
    ((length times < 2)%nat -> jitter = 0%Q).
Proof.
  intros Hout Htimes Hcount.
  eexists _, _, _. split.
  { apply (ping_router_parsed W ip count s output s1 times Hout Htimes Hcount). }
  split; [|split; [|split]].
  - destruct times; split; intros H; try reflexivity; discriminate H.
  - intros l Hl. destruct times as [|t times]; [discriminate Hl|].
    injection Hl as <-.
    apply (rounded_to_2_decimals_wd _ _ _ (statistics_mean_is_mean (t :: times))).
    apply round2_rounds.
  - intros Hlen.
    destruct (Nat.ltb_spec 1 (length times)) as [_|Hlt]; [|lia].
    apply (sqrt_rounded_to_2_decimals_wd _ _ _ (statistics_variance_is_variance times)).
    apply round2_sqrt_rounds.
  - intros Hlen.
    destruct (Nat.ltb_spec 1 (length times)) as [Hlt|_]; [lia | reflexivity].
Qed.

Lemma probe_latency_and_jitter_witness :
  let W := demo_world route_ok (Returns "3 of 10 replied") in
  let times := [inject_Z 20; inject_Z 22; inject_Z 21] in
  exists latency packet_loss jitter,
    ping_router W "192.168.1.1" 10 (boot no_files) =
    (Returns (latency, packet_loss, Some jitter),
     {| tick := 1; files := no_files; sleeps := [] |}) /\
    (latency = None <-> times = []) /\
    (forall l, latency = Some l ->
               rounded_to_2_decimals (arithmetic_mean times) l) /\
    ((2 <= length times)%nat ->
     sqrt_rounded_to_2_decimals (sample_variance times) jitter) /\
    ((length times < 2)%nat -> jitter = 0%Q).
Proof.
  intros W times.
  apply (probe_latency_and_jitter W "192.168.1.1" 10 (boot no_files)
           "3 of 10 replied").
  - reflexivity.
  - reflexivity.
  - discriminate.
Defined.

(** The scenarios of the spec: [count=10] with replies [[20,22,21]] gives
    latency 21.0, packet loss 70 and jitter 1.0; ten replies
    [[10,12,11,13,14,10,11,12,13,11]] give 11.7, 0 and 1.34 (67/50 in
    lowest terms); a single reply
    gives jitter 0.0; no reply gives no latency, packet loss 100 and
    jitter 0.0. *)
Example probe_scenarios :
  fst (ping_router (demo_world route_ok (Returns "3 of 10 replied"))
         "192.168.1.1" 10 (boot no_files))
  = Returns (Some (21 # 1), Some (70 # 1), Some (1 # 1))%Q /\
  fst (ping_router (demo_world route_ok (Returns "10 of 10 replied"))
         "192.168.1.1" 10 (boot no_files))
  = Returns (Some (117 # 10), Some (0 # 1), Some (67 # 50))%Q /\
  fst (ping_router (demo_world route_ok (Returns "1 of 10 replied"))
         "192.168.1.1" 10 (boot no_files))
  = Returns (Some (7 # 1), Some (90 # 1), Some (0 # 1))%Q /\
  fst (ping_router (demo_world route_ok (Returns "0 of 10 replied"))
         "192.168.1.1" 10 (boot no_files))
  = Returns (None, Some (100 # 1), Some (0 # 1))%Q.
Proof. repeat split; vm_compute; reflexivity. Qed.

(** ** Packet loss *)



(** ** A failed probe *)

(** C4 (as amended).  When running [ping] raises, [ping_router] raises
    nothing and returns [None] for all three of latency, packet loss and
    jitter; and whatever happens it returns without raising, so that the
    caller sees a failure through the absent latency alone. *)
Theorem ping_error_returns_all_none (W : World) ip count s e s1 :
  check_output W (ping_command W (Some ip) count) s = (Raises e, s1) ->
  ping_router W ip count s = (Returns (None, None, None), s1) /\
  safe (ping_router W ip count).
Proof.
  intros Hout. split.
  - apply (ping_router_error W ip count s e s1 Hout).
  - apply safe_ping_router.
Qed.

Lemma ping_error_returns_all_none_witness :
  let W := demo_world route_ok (Raises CalledProcessError) in
  ping_router W "192.168.1.1" 10 (boot no_files) =
  (Returns (None, None, None), {| tick := 1; files := no_files; sleeps := [] |}) /\
  safe (ping_router W "192.168.1.1" 10).
Proof.
  intros W.
  apply (ping_error_returns_all_none W "192.168.1.1" 10 (boot no_files)
           CalledProcessError).
  reflexivity.
Defined.

(** C4 as stated fails: a [ping] that exits with an error gives
    [(None, None, None)], whereas an empty reply series gives no latency
    with packet loss 100 and jitter 0.0. *)
Lemma ping_error_unlike_empty_series :
  let failing := demo_world route_ok (Raises CalledProcessError) in
  let silent := demo_world route_ok (Returns "0 of 10 replied") in
  fst (check_output failing (ping_command failing (Some "192.168.1.1") 10)
         (boot no_files)) = Raises CalledProcessError /\
  fst (ping_router failing "192.168.1.1" 10 (boot no_files))
  = Returns (None, None, None) /\
  fst (ping_router silent "192.168.1.1" 10 (boot no_files))
  = Returns (None, Some (100 # 1), Some (0 # 1))%Q /\
  fst (ping_router failing "192.168.1.1" 10 (boot no_files))
  <> fst (ping_router silent "192.168.1.1" 10 (boot no_files)).
Proof.
  repeat split; try (vm_compute; reflexivity).
  vm_compute. discriminate.
Qed.

(** ** The functions that never raise *)

Section Safety.

Variable W : World.

Lemma safe_clock : safe (ask (fun t => Returns (datetime_now W t))).
Proof. intros s. eexists _, _. reflexivity. Qed.

Hint Resolve safe_clock : safe.

Lemma safe_get_current_timestamp : safe (get_current_timestamp W).
Proof. unfold get_current_timestamp. safe_walk. Qed.

Lemma safe_get_active_interface : safe (get_active_interface W).
Proof. unfold get_active_interface. safe_walk. Qed.

Lemma safe_get_default_gateway_ip_line41 : safe (get_default_gateway_ip_line41 W).
Proof. unfold get_default_gateway_ip_line41. safe_walk. Qed.

Lemma safe_get_router_ip : safe (get_router_ip W).
Proof. unfold get_router_ip. safe_walk. Qed.

Lemma safe_get_router_mac ip : safe (get_router_mac W ip).
Proof. unfold get_router_mac. safe_walk. Qed.

Lemma safe_get_speedtest : safe (get_speedtest W).
Proof. unfold get_speedtest. safe_walk. Qed.

Lemma safe_get_isp_name : safe (get_isp_name W).
Proof. unfold get_isp_name. safe_walk. Qed.

Lemma safe_get_default_gateway_ip : safe (get_default_gateway_ip W).
Proof. unfold get_default_gateway_ip. safe_walk. Qed.

Lemma safe_check_gateway_reachability ip count :
  safe (check_gateway_reachability W ip count).
Proof. unfold check_gateway_reachability. safe_walk. Qed.

Lemma safe_get_interface_ip : safe (get_interface_ip W).
Proof. unfold get_interface_ip. safe_walk. Qed.

(** Line 286 calls the function defined at line 137. *)
Lemma call_resolves_to_later_definition :
  call_get_default_gateway_ip W = get_default_gateway_ip W.
Proof. reflexivity. Qed.

End Safety.

(** ** The store and the mirror *)

Lemma latest_after_append (rows : list row) (r : row) :
  max_id rows < id r -> latest (rows ++ [r]) = Some r.
Proof.
  induction rows as [|a rows IH]; simpl; intros H.
  - reflexivity.
  - rewrite IH by lia.
    destruct (Z.ltb_spec (id a) (id r)) as [_|Hge]; [reflexivity | lia].
Qed.

Lemma export_to_csv_appends (W : World) (s : state) (t : table) :
  DB_FILE (files s) = Some {| new_probe_logs := Some t |} ->
  export_to_csv W s =
  (if stdout_encodes_unicode W then Returns tt else Raises UnicodeEncodeError,
   {| tick := tick s;
      files :=
        set_csv_file
          (Some (opened_for_append (csv_file (files s)) ++
                 match latest (t_rows t) with
                 | Some r => [row_values r]
                 | None => []
                 end)%list)
          (files s);
      sleeps := sleeps s |}).
Proof.
  intros Hdb.
  unfold export_to_csv, print_unicode, bind, get_files, put_files, ret, raise.
  rewrite Hdb. simpl.
  destruct (stdout_encodes_unicode W);
    destruct (csv_file (files s)) as [records|]; simpl;
    destruct (latest (t_rows t)); simpl; rewrite ?app_nil_r; reflexivity.
Qed.

Lemma sqlite_insert_appends (mk : Z -> row) (s : state) (t : table) :
  DB_FILE (files s) = Some {| new_probe_logs := Some t |} ->
  sqlite_insert mk s =
  (Returns tt,
   {| tick := tick s;
      files :=
        set_DB_FILE
          (Some {| new_probe_logs :=
                     Some {| t_rows :=
                               t_rows t ++
                               [mk (Z.max (max_id (t_rows t)) (t_seq t) + 1)];
                             t_seq := Z.max (max_id (t_rows t)) (t_seq t) + 1 |} |})
          (files s);
      sleeps := sleeps s |}).
Proof.
  intros Hdb. unfold sqlite_insert, bind, get_files, put_files.
  rewrite Hdb. reflexivity.
Qed.

Lemma initialize_database_result (s : state) :
  initialize_database s =
  (Returns tt,
   {| tick := tick s;
      files :=
        {| DB_FILE :=
             Some (create_table_if_not_exists
                     match DB_FILE (files s) with
                     | Some d => d
                     | None => empty_database
                     end);
           BACKUP_FILE :=
             match DB_FILE (files s) with
             | Some d => Some d
             | None => BACKUP_FILE (files s)
             end;
           csv_file := csv_file (files s) |};
      sleeps := sleeps s |}).
Proof.
  unfold initialize_database, bind, get_files, put_files, ret.
  destruct (DB_FILE (files s)) as [d|] eqn:Hdb; simpl; rewrite ?Hdb; reflexivity.
Qed.

Lemma create_table_ready (d : database) :
  exists t, create_table_if_not_exists d = {| new_probe_logs := Some t |}.
Proof.
  destruct d as [[t|]]; eexists; reflexivity.
Qed.

Lemma create_table_keeps_rows (d : database) (fs : filesystem) :
  store_rows (set_DB_FILE (Some (create_table_if_not_exists d)) fs)
  = store_rows (set_DB_FILE (Some d) fs).
Proof. destruct d as [[t|]]; reflexivity. Qed.

Lemma initialize_database_ready (s : state) :
  table_ready (files (snd (initialize_database s))).
Proof.
  rewrite initialize_database_result. simpl.
  destruct (create_table_ready
              match DB_FILE (files s) with
              | Some d => d
              | None => empty_database
              end) as [t Ht].
  exists t. simpl. rewrite Ht. reflexivity.
Qed.

Lemma initialize_database_keeps_rows (s : state) :
  store_rows (files (snd (initialize_database s))) = store_rows (files s).
Proof.
  rewrite initialize_database_result. unfold store_rows. simpl.
  destruct (DB_FILE (files s)) as [[[t|]]|]; reflexivity.
Qed.

(** ** One cycle *)

Section Cycle.

Variable W : World.

Lemma log_to_db_appends (m : measurements) (s : state) (t : table) :
  DB_FILE (files s) = Some {| new_probe_logs := Some t |} ->
  exists iface sa,
    get_active_interface W s = (Returns iface, sa) /\
    log_to_db W (m_timestamp m) (m_router_ip m) (m_router_id m)
      (m_latency m) (m_packet_loss m) (m_jitter m) (m_signal_strength m)
      (m_download_speed m) (m_upload_speed m) (m_isp_name m)
      (m_gw_reach m) (m_interface_ip m) s =
    (Returns tt,
     {| tick := S (tick sa);
        files :=
          set_DB_FILE
            (Some {| new_probe_logs :=
                       Some {| t_rows :=
                                 t_rows t ++
                                 [sample_row m (next_id t) iface
                                    (datetime_now W (tick sa))];
                               t_seq := next_id t |} |})
            (files s);
        sleeps := sleeps s |}).
Proof.
  intros Hdb.
  destruct (safe_get_active_interface W s) as (iface & sa & Ea).
  destruct (quiet_get_active_interface W s) as [Hf Hs].
  rewrite Ea in Hf, Hs. simpl in Hf, Hs.
  exists iface, sa. split; [exact Ea|].
  unfold log_to_db. rewrite (bind_step _ _ _ _ _ Ea).
  unfold bind at 1. unfold ask at 1.
  rewrite (sqlite_insert_appends _ _ t) by (simpl; rewrite Hf; exact Hdb).
  simpl. rewrite Hf, Hs. reflexivity.
Qed.

Lemma next_id_above (t : table) : max_id (t_rows t) < next_id t.
Proof. unfold next_id. lia. Qed.

(** Lines 302-320 with a latency and a packet loss in hand. *)
Lemma record_or_skip_records (m : measurements) (s : state) (t : table) l p :
  stdout_encodes_unicode W = true ->
  m_latency m = Some l ->
  m_packet_loss m = Some p ->
  DB_FILE (files s) = Some {| new_probe_logs := Some t |} ->
  exists iface sa,
    get_active_interface W s = (Returns iface, sa) /\
    record_or_skip W m s =
    (Returns Recorded,
     {| tick := S (S (tick sa));
        files :=
          {| DB_FILE :=
               Some {| new_probe_logs :=
                         Some {| t_rows :=
                                   t_rows t ++
                                   [sample_row m (next_id t) iface
                                      (datetime_now W (tick sa))];
                                 t_seq := next_id t |} |};
             BACKUP_FILE := BACKUP_FILE (files s);
             csv_file :=
               Some (opened_for_append (csv_file (files s)) ++
                     [row_values (sample_row m (next_id t) iface
                                    (datetime_now W (tick sa)))])%list |};
        sleeps := sleeps s ++ [300] |}).
Proof.
  intros Hout Hl Hp Hdb.
  destruct (log_to_db_appends m s t Hdb) as (iface & sa & Ea & Elog).
  exists iface, sa. split; [exact Ea|].
  unfold record_or_skip.
  set (body := log_to_db _ _ _ _ _ _ _ _ _ _ _ _ _) in *.
  rewrite Hl. unfold format_2f. rewrite Hp. subst body.
  unfold bind at 1. unfold ret at 1.
  rewrite (bind_step _ _ _ _ _ Elog).
  unfold print_unicode. rewrite Hout.
  unfold bind at 1. unfold ret at 1.
  match goal with
  | |- context [bind (export_to_csv W) _ ?s'] =>
      pose proof (export_to_csv_appends W s' _ eq_refl) as Eexp
  end.
  rewrite Hout in Eexp. rewrite (bind_step _ _ _ _ _ Eexp).
  simpl t_rows.
  rewrite (latest_after_append (t_rows t)
             (sample_row m (next_id t) iface (datetime_now W (tick sa)))
             (next_id_above t)).
  reflexivity.
Qed.

(** Lines 302-316 on a standard output that cannot encode the check mark:
    the row is stored, then the [print] of line 316 raises; nothing is
    exported and the loop does not sleep. *)
Lemma record_or_skip_stores_then_raises
    (m : measurements) (s : state) (t : table) l p :
  stdout_encodes_unicode W = false ->
  m_latency m = Some l ->
  m_packet_loss m = Some p ->
  DB_FILE (files s) = Some {| new_probe_logs := Some t |} ->
  exists iface sa,
    get_active_interface W s = (Returns iface, sa) /\
    record_or_skip W m s =
    (Raises UnicodeEncodeError,
     {| tick := S (tick sa);
        files :=
          {| DB_FILE :=
               Some {| new_probe_logs :=
                         Some {| t_rows :=
                                   t_rows t ++
                                   [sample_row m (next_id t) iface
                                      (datetime_now W (tick sa))];
                                 t_seq := next_id t |} |};
             BACKUP_FILE := BACKUP_FILE (files s);
             csv_file := csv_file (files s) |};
        sleeps := sleeps s |}).
Proof.
  intros Hout Hl Hp Hdb.
  destruct (log_to_db_appends m s t Hdb) as (iface & sa & Ea & Elog).
  exists iface, sa. split; [exact Ea|].
  unfold record_or_skip.
  set (body := log_to_db _ _ _ _ _ _ _ _ _ _ _ _ _) in *.
  rewrite Hl. unfold format_2f. rewrite Hp. subst body.
  unfold bind at 1. unfold ret at 1.
  rewrite (bind_step _ _ _ _ _ Elog).
  unfold print_unicode. rewrite Hout. reflexivity.
Qed.

Lemma record_or_skip_skips (m : measurements) (s : state) :
  m_latency m = None ->
  record_or_skip W m s =
  (Returns Skipped,
   {| tick := S (tick s); files := files s; sleeps := sleeps s ++ [50] |}).
Proof.
  intros Hl. unfold record_or_skip. rewrite Hl. reflexivity.
Qed.

End Cycle.

(** ** The collection loop *)

Section Loop.

Variable W : World.

Hint Resolve quiet_check_output quiet_check_output_shell
  quiet_get_current_timestamp quiet_get_router_ip quiet_get_router_mac
  quiet_ping_router quiet_get_signal_strength quiet_get_speedtest
  quiet_get_isp_name quiet_get_default_gateway_ip
  quiet_check_gateway_reachability quiet_get_interface_ip : quiet.

Lemma quiet_collect : quiet (collect W).
Proof.
  unfold collect. rewrite call_resolves_to_later_definition. quiet_walk.
Qed.

(** What a completed collection knows about its parts. *)
Lemma collect_returns (s : state) (m : measurements) (s1 : state) :
  collect W s = (Returns m, s1) ->
  (exists sa sb,
      get_default_gateway_ip W sa = (Returns (m_gateway_ip m), sb)) /\
  (exists sa sb,
      ping_router W (m_router_ip m) 10 sa =
      (Returns (m_latency m, m_packet_loss m, m_jitter m), sb)) /\
  (exists sa sb,
      check_gateway_reachability W (m_gateway_ip m) 10 sa =
      (Returns (m_gw_reach m), sb)).
Proof.
  unfold collect. rewrite call_resolves_to_later_definition. intros H.
  apply bind_returns in H. destruct H as (gateway_ip & s_gw & Egw & H).
  apply bind_returns in H. destruct H as (timestamp & s_ts & Ets & H).
  apply bind_returns in H. destruct H as (router_ip & s_ip & Eip & H).
  apply bind_returns in H. destruct H as (router_id & s_id & Eid & H).
  apply bind_returns in H. destruct H as ([[l p] j] & s_ping & Eping & H).
  apply bind_returns in H. destruct H as (signal & s_sig & Esig & H).
  apply bind_returns in H. destruct H as ([down up] & s_speed & Espeed & H).
  apply bind_returns in H. destruct H as (isp & s_isp & Eisp & H).
  apply bind_returns in H. destruct H as (reach & s_reach & Ereach & H).
  apply bind_returns in H. destruct H as (iip & s_iip & Eiip & H).
  unfold ret in H. injection H as <- <-. simpl.
  split; [|split]; eexists _, _; eassumption.
Qed.

(** A latency comes with a packet loss and a jitter. *)
Lemma collect_complete (s : state) (m : measurements) (s1 : state) l :
  collect W s = (Returns m, s1) ->
  m_latency m = Some l ->
  exists p j, m_packet_loss m = Some p /\ m_jitter m = Some j.
Proof.
  intros Hc Hl.
  destruct (collect_returns s m s1 Hc) as (_ & (sa & sb & Eping) & _).
  destruct (ping_router_shape W (m_router_ip m) 10 sa)
    as (l' & p' & j' & sb' & E & Hshape).
  rewrite Eping in E. injection E as <- <- <- _.
  destruct Hshape as [(Hnone & _ & _) | (p & j & Hp & Hj)].
  - rewrite Hl in Hnone. discriminate Hnone.
  - exists p, j. split; assumption.
Qed.

(** The four ways one pass through the loop body can go, from a state in
    which the table exists. *)
Lemma main_iteration_cases (s : state) (t : table) :
  DB_FILE (files s) = Some {| new_probe_logs := Some t |} ->
  (exists e s1,
      collect W s = (Raises e, s1) /\
      main_iteration W s = (Raises e, s1) /\
      files s1 = files s /\ sleeps s1 = sleeps s)
  \/
  (exists m s1,
      collect W s = (Returns m, s1) /\
      m_latency m = None /\
      main_iteration W s =
      (Returns Skipped,
       {| tick := S (tick s1); files := files s; sleeps := sleeps s ++ [50] |}))
  \/
  (exists m s1 l p j iface sa,
      stdout_encodes_unicode W = true /\
      collect W s = (Returns m, s1) /\
      m_latency m = Some l /\ m_packet_loss m = Some p /\ m_jitter m = Some j /\
      get_active_interface W s1 = (Returns iface, sa) /\
      main_iteration W s =
      (Returns Recorded,
       {| tick := S (S (tick sa));
          files :=
            {| DB_FILE :=
                 Some {| new_probe_logs :=
                           Some {| t_rows :=
                                     t_rows t ++
                                     [sample_row m (next_id t) iface
                                        (datetime_now W (tick sa))];
                                   t_seq := next_id t |} |};
               BACKUP_FILE := BACKUP_FILE (files s);
               csv_file :=
                 Some (opened_for_append (csv_file (files s)) ++
                       [row_values (sample_row m (next_id t) iface
                                      (datetime_now W (tick sa)))])%list |};
          sleeps := sleeps s ++ [300] |}))
  \/
  (exists m s1 l p j iface sa,
      stdout_encodes_unicode W = false /\
      collect W s = (Returns m, s1) /\
      m_latency m = Some l /\ m_packet_loss m = Some p /\ m_jitter m = Some j /\
      get_active_interface W s1 = (Returns iface, sa) /\
      main_iteration W s =
      (Raises UnicodeEncodeError,
       {| tick := S (tick sa);
          files :=
            {| DB_FILE :=
                 Some {| new_probe_logs :=
                           Some {| t_rows :=
                                     t_rows t ++
                                     [sample_row m (next_id t) iface
                                        (datetime_now W (tick sa))];
                                   t_seq := next_id t |} |};
               BACKUP_FILE := BACKUP_FILE (files s);
               csv_file := csv_file (files s) |};
          sleeps := sleeps s |})).
Proof.
  intros Hdb.
  destruct (quiet_collect s) as [Hf Hs].
  destruct (collect W s) as [[m|e] s1] eqn:Hc; simpl in Hf, Hs.
  - destruct (m_latency m) as [l|] eqn:Hl.
    + right; right.
      destruct (collect_complete s m s1 l Hc Hl) as (p & j & Hp & Hj).
      assert (Hdb1 : DB_FILE (files s1) = Some {| new_probe_logs := Some t |})
        by (rewrite Hf; exact Hdb).
      destruct (stdout_encodes_unicode W) eqn:Hout.
      * left.
        destruct (record_or_skip_records W m s1 t l p Hout Hl Hp Hdb1)
          as (iface & sa & Ea & Erec).
        exists m, s1, l, p, j, iface, sa.
        repeat (split; [first [reflexivity | assumption]|]).
        unfold main_iteration. rewrite (bind_step _ _ _ _ _ Hc).
        rewrite Erec, Hf, Hs. reflexivity.
      * right.
        destruct (record_or_skip_stores_then_raises W m s1 t l p Hout Hl Hp Hdb1)
          as (iface & sa & Ea & Erec).
        exists m, s1, l, p, j, iface, sa.
        repeat (split; [first [reflexivity | assumption]|]).
        unfold main_iteration. rewrite (bind_step _ _ _ _ _ Hc).
        rewrite Erec, Hf, Hs. reflexivity.
    + right; left. exists m, s1.
      split; [reflexivity | split; [exact Hl|]].
      unfold main_iteration. rewrite (bind_step _ _ _ _ _ Hc).
      rewrite (record_or_skip_skips W m s1 Hl), Hf, Hs. reflexivity.
  - left. exists e, s1.
    split; [reflexivity | split; [|split; assumption]].
    unfold main_iteration. apply (bind_raises _ _ _ _ _ Hc).
Qed.

(** The table, once there, stays. *)
Lemma main_iteration_keeps_table (s s2 : state) (c : cycle_end) :
  table_ready (files s) ->
  main_iteration W s = (Returns c, s2) ->
  table_ready (files s2).
Proof.
  intros [t Hdb] Hit.
  destruct (main_iteration_cases s t Hdb)
    as [(e & s1 & _ & E & _)
       | [(m & s1 & _ & _ & E)
         | [(m & s1 & l & p & j & iface & sa & _ & _ & _ & _ & _ & _ & E)
           | (m & s1 & l & p & j & iface & sa & _ & _ & _ & _ & _ & _ & E)]]];
    rewrite E in Hit.
  - discriminate Hit.
  - injection Hit as _ <-. exists t. exact Hdb.
  - injection Hit as _ <-. eexists. reflexivity.
  - discriminate Hit.
Qed.

Lemma iterations_keep_table (n : nat) (s s2 : state) :
  table_ready (files s) ->
  iterations W n s = (Returns tt, s2) ->
  table_ready (files s2).
Proof.
  revert s. induction n as [|n IH]; simpl; intros s Hready Hrun.
  - injection Hrun as <-. exact Hready.
  - apply bind_returns in Hrun. destruct Hrun as (c & s1 & Hit & Hrest).
    apply (IH s1); [|exact Hrest].
    apply (main_iteration_keeps_table s s1 c Hready Hit).
Qed.

(** [main] starts every cycle with the table in place. *)
Lemma main_reaches_ready (n : nat) (s0 s : state) :
  main W n s0 = (Returns tt, s) -> table_ready (files s).
Proof.
  unfold main. intros Hrun.
  apply bind_returns in Hrun. destruct Hrun as ([] & s1 & Hinit & Hrest).
  apply (iterations_keep_table n s1 s); [|exact Hrest].
  pose proof (initialize_database_ready s0) as Hready.
  rewrite Hinit in Hready. exact Hready.
Qed.

End Loop.

(** ** When a cycle is cut short *)




#[export] Hint Resolve safe_get_current_timestamp safe_get_active_interface
  safe_get_router_ip safe_get_router_mac safe_ping_router safe_get_speedtest
  safe_get_isp_name safe_get_default_gateway_ip
  safe_check_gateway_reachability safe_get_interface_ip : safe.



(** ** Skip on failure *)





(** The scenario of the spec: with no reply at all the cycle is skipped,
    nothing is written and the loop backs off for 50 seconds; with replies
    the same host records one row and sleeps 300. *)
Example all_timeout_cycle_is_skipped :
  let silent := demo_world route_ok (Returns "0 of 10 replied") in
  let failing := demo_world route_ok (Raises CalledProcessError) in
  let answering := demo_world route_ok (Returns "3 of 10 replied") in
  let s := snd (initialize_database (boot no_files)) in
  fst (main_iteration silent s) = Returns Skipped /\
  files (snd (main_iteration silent s)) = files s /\
  sleeps (snd (main_iteration silent s)) = [50] /\
  fst (main_iteration failing s) = Returns Skipped /\
  files (snd (main_iteration failing s)) = files s /\
  fst (main_iteration answering s) = Returns Recorded /\
  length (store_rows (files (snd (main_iteration answering s)))) = 1%nat /\
  sleeps (snd (main_iteration answering s)) = [300].
Proof. repeat split; vm_compute; reflexivity. Qed.

(** ** Rows without gaps *)

Section Rows.

Variable W : World.

(** Each returning pass either leaves the files alone or appends one row
    with all three statistics to the table and that row to the mirror. *)
Lemma main_iteration_returns (s s2 : state) (c : cycle_end) :
  table_ready (files s) ->
  main_iteration W s = (Returns c, s2) ->
  match c with
  | Skipped => files s2 = files s
  | Recorded =>
      exists r,
        complete_statistics r /\
        max_id (store_rows (files s)) < id r /\
        store_rows (files s2) = (store_rows (files s) ++ [r])%list /\
        csv_file (files s2) =
        Some (opened_for_append (csv_file (files s)) ++ [row_values r])%list /\
        BACKUP_FILE (files s2) = BACKUP_FILE (files s)
  end.
Proof.
  intros [t Hdb] Hit.
  assert (Hrows : store_rows (files s) = t_rows t)
    by (unfold store_rows; rewrite Hdb; reflexivity).
  destruct (main_iteration_cases W s t Hdb)
    as [(e & s1 & _ & E & _)
       | [(m & s1 & _ & _ & E)
         | [(m & s1 & l & p & j & iface & sa & _ & _ & Hl & Hp & Hj & _ & E)
           | (m & s1 & l & p & j & iface & sa & _ & _ & _ & _ & _ & _ & E)]]];
    rewrite E in Hit.
  - discriminate Hit.
  - injection Hit as <- <-. reflexivity.
  - injection Hit as <- <-.
    exists (sample_row m (next_id t) iface (datetime_now W (tick sa))).
    rewrite Hrows. unfold complete_statistics, store_rows. simpl.
    rewrite Hl, Hp, Hj.
    repeat split; try discriminate. apply next_id_above.
  - discriminate Hit.
Qed.


End Rows.




(** ** The mirror *)

Lemma row_values_not_header (r : row) : row_values r <> csv_header.
Proof. unfold row_values, csv_header. simpl. discriminate. Qed.

Lemma mirror_ok_same (fs fs' : filesystem) :
  csv_file fs' = csv_file fs ->
  store_rows fs' = store_rows fs ->
  mirror_ok fs -> mirror_ok fs'.
Proof. unfold mirror_ok. intros -> ->. exact (fun H => H). Qed.

Lemma mirror_ok_after_export (fs fs' : filesystem) (r : row) :
  store_rows fs' = (store_rows fs ++ [r])%list ->
  csv_file fs' = Some (opened_for_append (csv_file fs) ++ [row_values r])%list ->
  mirror_ok fs -> mirror_ok fs'.
Proof.
  unfold mirror_ok. intros Hrows Hcsv Hok. rewrite Hcsv, Hrows.
  rewrite length_app. simpl.
  destruct (csv_file fs) as [records|]; simpl.
  - destruct Hok as (data & -> & Hdata & Hlen).
    exists (data ++ [row_values r])%list. split; [reflexivity | split].
    + apply Forall_app. split; [exact Hdata|].
      constructor; [apply row_values_not_header | constructor].
    + rewrite length_app. simpl. lia.
  - exists [row_values r]. split; [reflexivity | split].
    + constructor; [apply row_values_not_header | constructor].
    + simpl. lia.
Qed.

Lemma main_iteration_keeps_mirror (W : World) (s s2 : state) (c : cycle_end) :
  table_ready (files s) ->
  mirror_ok (files s) ->
  main_iteration W s = (Returns c, s2) ->
  mirror_ok (files s2).
Proof.
  intros Hready Hok Hit.
  pose proof (main_iteration_returns W s s2 c Hready Hit) as Hstep.
  destruct c.
  - rewrite Hstep. exact Hok.
  - destruct Hstep as (r & _ & _ & Hrows & Hcsv & _).
    apply (mirror_ok_after_export (files s) (files s2) r Hrows Hcsv Hok).
Qed.

Lemma iterations_keep_mirror (W : World) (n : nat) (s s2 : state) :
  table_ready (files s) ->
  mirror_ok (files s) ->
  iterations W n s = (Returns tt, s2) ->
  mirror_ok (files s2).
Proof.
  revert s. induction n as [|n IH]; simpl; intros s Hready Hok Hrun.
  - injection Hrun as <-. exact Hok.
  - apply bind_returns in Hrun. destruct Hrun as (c & s1 & Hit & Hrest).
    apply (IH s1); [ | | exact Hrest].
    + apply (main_iteration_keeps_table W s s1 c Hready Hit).
    + apply (main_iteration_keeps_mirror W s s1 c Hready Hok Hit).
Qed.

Lemma main_iteration_records (W : World) (s : state) m s1 l :
  stdout_encodes_unicode W = true ->
  table_ready (files s) ->
  collect W s = (Returns m, s1) ->
  m_latency m = Some l ->
  exists s2, main_iteration W s = (Returns Recorded, s2).
Proof.
  intros Hout [t Hdb] Hc Hl.
  destruct (main_iteration_cases W s t Hdb)
    as [(e & s1' & Hc' & _)
       | [(m' & s1' & Hc' & Hl' & _)
         | [(m' & s1' & l' & p & j & iface & sa & _ & _ & _ & _ & _ & _ & E)
           | (m' & s1' & l' & p & j & iface & sa & Hout' & _)]]].
  - rewrite Hc in Hc'. discriminate Hc'.
  - rewrite Hc in Hc'. injection Hc' as <- _.
    rewrite Hl in Hl'. discriminate Hl'.
  - eexists. exact E.
  - rewrite Hout in Hout'. discriminate Hout'.
Qed.

(** What one call of [export_to_csv] does, whatever the store holds. *)
Lemma export_to_csv_cases (W : World) (st : state) :
  match DB_FILE (files st) with
  | None => export_to_csv W st = (Returns tt, st)
  | Some db =>
      match new_probe_logs db with
      | None => export_to_csv W st = (Raises OperationalError, st)
      | Some t =>
          exists st',
            export_to_csv W st =
            (if stdout_encodes_unicode W then Returns tt
             else Raises UnicodeEncodeError, st') /\
            csv_file (files st') =
            Some (match csv_file (files st) with
                  | Some old => old
                  | None => [csv_header]
                  end ++
                  match latest (t_rows t) with
                  | Some r => [row_values r]
                  | None => []
                  end)%list /\
            store_rows (files st') = store_rows (files st)
      end
  end.
Proof.
  destruct (DB_FILE (files st)) as [[[t|]]|] eqn:Hdb.
  - simpl. eexists. split; [apply (export_to_csv_appends W st t Hdb)|].
    unfold store_rows. simpl. rewrite Hdb. split; reflexivity.
  - simpl. unfold export_to_csv, bind, get_files, raise. rewrite Hdb.
    destruct st; reflexivity.
  - unfold export_to_csv, bind, get_files, ret. rewrite Hdb.
    destruct st; reflexivity.
Qed.

(** C6 (as amended).  A call of [export_to_csv] on a store that holds at
    least one row opens the mirror for appending, writes the header first
    exactly when the mirror did not exist, and appends exactly one record,
    the row [SELECT ... ORDER BY id DESC LIMIT 1] finds; on a store whose
    table is empty it appends no record, and on a missing data file it
    writes nothing at all.  In a run of [main] that starts with no mirror,
    or with a mirror that is the header followed by no more data records
    than the store has rows, the mirror is of that kind again at the start
    of every cycle (one header, no more records than rows), and a cycle that
    records, as every cycle with a latency does where the standard output
    can show the progress messages, appends to the mirror the row just
    appended to the store, which is then the last record of the mirror. *)
Theorem mirror_follows_store (W : World) (n : nat) (s0 s : state) :
  mirror_ok (files s0) ->
  main W n s0 = (Returns tt, s) ->
  (forall st,
      match DB_FILE (files st) with
      | None => export_to_csv W st = (Returns tt, st)
      | Some db =>
          match new_probe_logs db with
          | None => export_to_csv W st = (Raises OperationalError, st)
          | Some t =>
              exists st',
                export_to_csv W st =
                (if stdout_encodes_unicode W then Returns tt
                 else Raises UnicodeEncodeError, st') /\
                csv_file (files st') =
                Some (match csv_file (files st) with
                      | Some old => old
                      | None => [csv_header]
                      end ++
                      match latest (t_rows t) with
                      | Some r => [row_values r]
                      | None => []
                      end)%list /\
                store_rows (files st') = store_rows (files st)
          end
      end) /\
  mirror_ok (files s) /\
  (forall m s1 l,
      stdout_encodes_unicode W = true ->
      collect W s = (Returns m, s1) -> m_latency m = Some l ->
      exists s2, main_iteration W s = (Returns Recorded, s2)) /\
  forall s2,
    main_iteration W s = (Returns Recorded, s2) ->
    exists r records,
      store_rows (files s2) = (store_rows (files s) ++ [r])%list /\
      latest (store_rows (files s2)) = Some r /\
      csv_file (files s2) = Some records /\
      records =
      (match csv_file (files s) with
       | Some old => old
       | None => [csv_header]
       end ++ [row_values r])%list /\
      last records [] = row_values r /\
      mirror_ok (files s2).
Proof.
  intros Hok Hrun.
  split; [intros st; apply export_to_csv_cases|].
  pose proof (main_reaches_ready W n s0 s Hrun) as Hready.
  assert (Hok' : mirror_ok (files s)).
  { unfold main in Hrun.
    apply bind_returns in Hrun. destruct Hrun as ([] & s1 & Hinit & Hrest).
    pose proof (initialize_database_ready s0) as Hready1.
    pose proof (initialize_database_keeps_rows s0) as Hkeep.
    pose proof (initialize_database_result s0) as Hres.
    rewrite Hinit in Hready1, Hkeep, Hres. simpl in Hready1, Hkeep.
    apply (iterations_keep_mirror W n s1 s Hready1); [|exact Hrest].
    apply (mirror_ok_same (files s0)); [|exact Hkeep|exact Hok].
    injection Hres as ->. reflexivity. }
  split; [exact Hok'|].
  split; [intros m s1 l Hout; apply (main_iteration_records W s m s1 l Hout Hready)|].
  intros s2 Hit.
  destruct (main_iteration_returns W s s2 Recorded Hready Hit)
    as (r & _ & Hid & Hrows & Hcsv & _).
  exists r, (opened_for_append (csv_file (files s)) ++ [row_values r])%list.
  split; [exact Hrows | split; [|split; [exact Hcsv | split; [reflexivity | split]]]].
  - rewrite Hrows. apply latest_after_append. exact Hid.
  - apply last_last.
  - apply (mirror_ok_after_export (files s) (files s2) r Hrows Hcsv Hok').
Qed.

Lemma mirror_follows_store_witness :
  let W := demo_world route_ok (Returns "3 of 10 replied") in
  let s := snd (main W 1 (boot no_files)) in
  (forall st,
      match DB_FILE (files st) with
      | None => export_to_csv W st = (Returns tt, st)
      | Some db =>
          match new_probe_logs db with
          | None => export_to_csv W st = (Raises OperationalError, st)
          | Some t =>
              exists st',
                export_to_csv W st =
                (if stdout_encodes_unicode W then Returns tt
                 else Raises UnicodeEncodeError, st') /\
                csv_file (files st') =
                Some (match csv_file (files st) with
                      | Some old => old
                      | None => [csv_header]
                      end ++
                      match latest (t_rows t) with
                      | Some r => [row_values r]
                      | None => []
                      end)%list /\
                store_rows (files st') = store_rows (files st)
          end
      end) /\
  mirror_ok (files s) /\
  (forall m s1 l,
      stdout_encodes_unicode W = true ->
      collect W s = (Returns m, s1) -> m_latency m = Some l ->
      exists s2, main_iteration W s = (Returns Recorded, s2)) /\
  forall s2,
    main_iteration W s = (Returns Recorded, s2) ->
    exists r records,
      store_rows (files s2) = (store_rows (files s) ++ [r])%list /\
      latest (store_rows (files s2)) = Some r /\
      csv_file (files s2) = Some records /\
      records =
      (match csv_file (files s) with
       | Some old => old
       | None => [csv_header]
       end ++ [row_values r])%list /\
      last records [] = row_values r /\
      mirror_ok (files s2).
Proof.
  intros W s.
  apply (mirror_follows_store W 1 (boot no_files) s).
  - exact I.
  - vm_compute. reflexivity.
Defined.

(** C6 as stated fails at the guards of lines 253 and 273 and for a mirror
    that exists without a header.  On a store whose table is empty the call
    creates the mirror with the header and no data row; on a missing data
    file it writes nothing, not even the header of a mirror that does not
    exist; and into an existing empty mirror it appends the row without ever
    writing the header. *)
Lemma export_without_a_row_or_a_header :
  let W := demo_world route_ok (Returns "3 of 10 replied") in
  let empty_store := snd (initialize_database (boot no_files)) in
  let after_one_cycle := snd (main W 1 (boot no_files)) in
  let empty_mirror :=
    {| tick := 0;
       files := set_csv_file (Some []) (files after_one_cycle);
       sleeps := [] |} in
  store_rows (files empty_store) = [] /\
  csv_file (files (snd (export_to_csv W empty_store))) = Some [csv_header] /\
  files (snd (export_to_csv W (boot no_files))) = no_files /\
  length (store_rows (files empty_mirror)) = 1%nat /\
  csv_file (files (snd (export_to_csv W empty_mirror)))
  = Some (map row_values (store_rows (files empty_mirror))) /\
  ~ In csv_header
      (map row_values (store_rows (files empty_mirror))).
Proof.
  repeat split; try (vm_compute; reflexivity).
  vm_compute. intros [H | []]. discriminate H.
Qed.

(** Two cycles on a fresh host: the header once, then one record per stored
    row, in the order of the rows. *)
Example mirror_after_two_cycles :
  let W := demo_world route_ok (Returns "3 of 10 replied") in
  let fs := files (snd (main W 2 (boot no_files))) in
  csv_file fs = Some (csv_header :: map row_values (store_rows fs)) /\
  length (store_rows fs) = 2%nat.
Proof. split; vm_compute; reflexivity. Qed.

(** ** Backup and schema *)

(** C5 (as amended).  With a data file [d] in place, [initialize_database]
    never raises; it copies [d] as it is to the backup path, whatever was
    there, and only then makes sure the table exists, which changes nothing
    when [d] already has it.  Called twice in a row it leaves at the (one)
    backup path the data file as the first call left it, which is [d] itself
    whenever [d] already held the table; the stored rows and the mirror are
    untouched throughout. *)
Theorem initialize_database_twice (s : state) (d : database) :
  DB_FILE (files s) = Some d ->
  let s1 := snd (initialize_database s) in
  let s2 := snd (initialize_database s1) in
  fst (initialize_database s) = Returns tt /\
  fst (initialize_database s1) = Returns tt /\
  BACKUP_FILE (files s1) = Some d /\
  DB_FILE (files s1) = Some (create_table_if_not_exists d) /\
  table_ready (files s1) /\
  (forall t, new_probe_logs d = Some t -> DB_FILE (files s1) = Some d) /\
  BACKUP_FILE (files s2) = DB_FILE (files s1) /\
  (forall t, new_probe_logs d = Some t -> BACKUP_FILE (files s2) = Some d) /\
  DB_FILE (files s2) = DB_FILE (files s1) /\
  store_rows (files s1) = store_rows (files s) /\
  store_rows (files s2) = store_rows (files s) /\
  csv_file (files s2) = csv_file (files s).
Proof.
  intros Hdb s1 s2. subst s2 s1.
  rewrite !initialize_database_result. simpl. rewrite Hdb.
  unfold store_rows, table_ready. simpl. rewrite Hdb.
  destruct d as [[t|]]; simpl;
    repeat split; try reflexivity; try (eexists; reflexivity);
    intros t' Ht'; try discriminate Ht'; reflexivity.
Qed.

Lemma initialize_database_twice_witness :
  let d := {| new_probe_logs := Some {| t_rows := []; t_seq := 7 |} |} in
  let s := boot {| DB_FILE := Some d; BACKUP_FILE := Some empty_database;
                   csv_file := None |} in
  let s1 := snd (initialize_database s) in
  let s2 := snd (initialize_database s1) in
  fst (initialize_database s) = Returns tt /\
  fst (initialize_database s1) = Returns tt /\
  BACKUP_FILE (files s1) = Some d /\
  DB_FILE (files s1) = Some (create_table_if_not_exists d) /\
  table_ready (files s1) /\
  (forall t, new_probe_logs d = Some t -> DB_FILE (files s1) = Some d) /\
  BACKUP_FILE (files s2) = DB_FILE (files s1) /\
  (forall t, new_probe_logs d = Some t -> BACKUP_FILE (files s2) = Some d) /\
  DB_FILE (files s2) = DB_FILE (files s1) /\
  store_rows (files s1) = store_rows (files s) /\
  store_rows (files s2) = store_rows (files s) /\
  csv_file (files s2) = csv_file (files s).
Proof.
  intros d s.
  apply (initialize_database_twice s d).
  reflexivity.
Defined.

(** C5 as stated fails for a data file that exists without the table: the
    first call backs it up and then adds the table, so the second call's
    backup holds the table and is not the file the first call found. *)
Lemma second_backup_is_not_the_file_first_found :
  let s := boot {| DB_FILE := Some empty_database; BACKUP_FILE := None;
                   csv_file := None |} in
  let s1 := snd (initialize_database s) in
  let s2 := snd (initialize_database s1) in
  BACKUP_FILE (files s1) = DB_FILE (files s) /\
  BACKUP_FILE (files s2) =
  Some {| new_probe_logs := Some {| t_rows := []; t_seq := 0 |} |} /\
  BACKUP_FILE (files s2) <> DB_FILE (files s).
Proof.
  repeat split. vm_compute. discriminate.
Qed.

(** Without a data file nothing is backed up and an empty table is made. *)
Example initialize_database_on_a_fresh_host :
  files (snd (initialize_database (boot no_files))) =
  {| DB_FILE := Some {| new_probe_logs := Some {| t_rows := []; t_seq := 0 |} |};
     BACKUP_FILE := None; csv_file := None |}.
Proof. reflexivity. Qed.

(** ** Gateway reachability *)

Lemma check_output_none_target (W : World) (count : Z) (s : state) :
  check_output W (ping_command W None count) s = (Raises TypeError, s).
Proof.
  unfold check_output, ping_command.
  destruct (String.eqb (platform_system W) "Windows"); reflexivity.
Qed.

Lemma check_gateway_reachability_error (W : World) ip count s e s1 :
  check_output W (ping_command W ip count) s = (Raises e, s1) ->
  check_gateway_reachability W ip count s = (Returns "unknown", s1).
Proof.
  intros Hout. unfold check_gateway_reachability, try_except.
  rewrite (bind_raises _ _ _ _ _ Hout). reflexivity.
Qed.

Lemma check_gateway_reachability_ran (W : World) ip count s output s1 :
  count <> 0 ->
  check_output W (ping_command W ip count) s = (Returns output, s1) ->
  check_gateway_reachability W ip count s =
  (Returns
     (str_of_int
        (round_half_even
           (Qred
              (Qred (inject_Z (Z.of_nat (length
                       (re_findall W "time[=<](\d+(?:\.\d+)?)" output)))
                     / inject_Z count) * 100))) ++ "%"),
   s1).
Proof.
  intros Hcount Hout. unfold check_gateway_reachability, try_except.
  rewrite (bind_step _ _ _ _ _ Hout).
  unfold bind, lift, truediv.
  destruct (Z.eqb_spec count 0) as [E|_]; [contradiction | reflexivity].
Qed.

(** C7.  For a positive count, [check_gateway_reachability] never raises.
    When [ping] ran, it returns the percentage [received / count * 100]
    rounded to an integer (at most one half away from it), followed by a
    percent sign; when [ping] failed it returns ["unknown"]; and for the
    target [None], which an unresolved gateway gives, it returns
    ["unknown"]. *)
Theorem check_gateway_reachability_result (W : World) ip count s :
  0 < count ->
  exists v s1,
    check_gateway_reachability W ip count s = (Returns v, s1) /\
    match check_output W (ping_command W ip count) s with
    | (Returns output, s') =>
        s1 = s' /\
        exists r : Z,
          v = str_of_int r ++ "%" /\
          (Qabs (inject_Z r -
                 inject_Z (Z.of_nat (length
                    (re_findall W "time[=<](\d+(?:\.\d+)?)" output)))
                 / inject_Z count * 100) <= 1 # 2)%Q
    | (Raises e, s') => s1 = s' /\ v = "unknown"
    end /\
    (ip = None -> v = "unknown").
Proof.
  intros Hcount.
  destruct (check_output W (ping_command W ip count) s) as [[output|e] s']
    eqn:Hout.
  - eexists _, s'. split.
    { apply (check_gateway_reachability_ran W ip count s output s');
        [lia | exact Hout]. }
    split.
    + split; [reflexivity|]. eexists. split; [reflexivity|].
      match goal with
      | |- context [round_half_even ?y] =>
          pose proof (round_half_even_close y) as Hclose;
          set (r := round_half_even y) in *
      end.
      rewrite !Qred_correct in Hclose. exact Hclose.
    + intros ->. rewrite check_output_none_target in Hout. discriminate Hout.
  - exists "unknown", s'. split.
    { apply (check_gateway_reachability_error W ip count s e s' Hout). }
    split; [split; reflexivity | reflexivity].
Qed.

Lemma check_gateway_reachability_result_witness :
  let W := demo_world route_ok (Returns "3 of 10 replied") in
  let ip := Some "192.168.1.1" in
  let s := boot no_files in
  exists v s1,
    check_gateway_reachability W ip 10 s = (Returns v, s1) /\
    match check_output W (ping_command W ip 10) s with
    | (Returns output, s') =>
        s1 = s' /\
        exists r : Z,
          v = str_of_int r ++ "%" /\
          (Qabs (inject_Z r -
                 inject_Z (Z.of_nat (length
                    (re_findall W "time[=<](\d+(?:\.\d+)?)" output)))
                 / inject_Z 10 * 100) <= 1 # 2)%Q
    | (Raises e, s') => s1 = s' /\ v = "unknown"
    end /\
    (ip = None -> v = "unknown").
Proof.
  intros W ip s.
  apply (check_gateway_reachability_result W ip 10 s).
  reflexivity.
Defined.

(** Three replies out of ten are 30%; a failed [ping] and the target [None]
    are ["unknown"]. *)
Example reachability_scenarios :
  fst (check_gateway_reachability
         (demo_world route_ok (Returns "3 of 10 replied"))
         (Some "192.168.1.1") 10 (boot no_files)) = Returns "30%" /\
  fst (check_gateway_reachability
         (demo_world route_ok (Raises CalledProcessError))
         (Some "192.168.1.1") 10 (boot no_files)) = Returns "unknown" /\
  fst (check_gateway_reachability
         (demo_world route_ok (Returns "3 of 10 replied"))
         None 10 (boot no_files)) = Returns "unknown".
Proof. repeat split; vm_compute; reflexivity. Qed.

(** ** The stored timestamp *)

(** C8 fails on the code.  On a host whose clock advances one second per
    external call, the cycle takes its timestamp at 12:00:07, before the
    probe and the other queries, and hands it to [log_to_db]; the row is
    stored with the time 12:00:19, which [log_to_db] read from the clock
    itself just before the insert. *)
Theorem stored_time_is_read_at_insertion :
  let W := demo_world route_ok (Returns "3 of 10 replied") in
  let s := snd (initialize_database (boot no_files)) in
  exists m s1 s2 r,
    collect W s = (Returns m, s1) /\
    main_iteration W s = (Returns Recorded, s2) /\
    store_rows (files s2) = [r] /\
    m_timestamp m = "2024-05-17 12:00:07" /\
    date r = "2024-05-17" /\
    time r = "12:00:19" /\
    date r ++ " " ++ time r <> m_timestamp m.
Proof.
  intros W s.
  destruct (collect W s) as [[m|e] s1] eqn:Hc; [|vm_compute in Hc; discriminate Hc].
  destruct (main_iteration W s) as [[c|e] s2] eqn:Hit;
    [|vm_compute in Hit; discriminate Hit].
  vm_compute in Hc. injection Hc as <- <-.
  vm_compute in Hit. injection Hit as <- <-.
  eexists _, _, _, _. repeat split. discriminate.
Qed.

(** ** The gateway lookup that runs *)

Lemma get_default_gateway_ip_result (W : World) (s : state) r s1 :
  get_default_gateway_ip W s = (Returns r, s1) ->
  r = None \/ exists pattern flag output, r = re_search W pattern flag output.
Proof.
  unfold get_default_gateway_ip. intros H.
  apply bind_returns in H. destruct H as ([] & sa & _ & H).
  cbv zeta in H.
  destruct (String.eqb (platform_system W) "Windows").
  - unfold try_except, bind, ret in H.
    destruct (check_output W _ sa) as [[output|e] sb].
    + injection H as <- _. right. eexists _, _, _. reflexivity.
    + injection H as <- _. left. reflexivity.
  - destruct (String.eqb (platform_system W) "Linux"
              || String.eqb (platform_system W) "Darwin").
    + unfold try_except, bind, ret in H.
      destruct (check_output W [Some "ip"; Some "route"] sa) as [[output|e] sb].
      * injection H as <- _. right. eexists _, _, _. reflexivity.
      * destruct (check_output W _ sb) as [[output|e'] sc].
        -- injection H as <- _. right. eexists _, _, _. reflexivity.
        -- injection H as <- _. left. reflexivity.
    + unfold ret in H. injection H as <- _. left. reflexivity.
Qed.

Lemma get_default_gateway_ip_line41_result (W : World) (s : state) g s1 :
  get_default_gateway_ip_line41 W s = (Returns g, s1) ->
  g = "unknown" \/
  exists pattern flag output, re_search W pattern flag output = Some g.
Proof.
  unfold get_default_gateway_ip_line41, try_except, bind, check_output_shell,
    ask, ret.
  destruct (String.eqb (platform_system W) "Windows");
    destruct (subprocess_check_output W (tick s) _) as [output|e];
    try (intros H; injection H as <- _; left; reflexivity);
    match goal with
    | |- context [re_search W ?p ?f ?o] =>
        destruct (re_search W p f o) as [g'|] eqn:Hre
    end;
    intros H; injection H as <- _;
    first [ left; reflexivity | right; eexists _, _, _; exact Hre ].
Qed.

(** The lookup of line 137 on a host where none of its strategies parses a
    gateway: whatever the platform and whichever commands fail, it returns
    [None]. *)
Lemma get_default_gateway_ip_nothing_parsed (W : World) (s : state) :
  nothing_parsed W ->
  exists s1, get_default_gateway_ip W s = (Returns None, s1).
Proof.
  intros (Hipconfig & Hiproute & Hroute).
  unfold get_default_gateway_ip.
  match goal with
  | |- context [bind ?p _] =>
      match p with try_except _ _ => set (prelude := p) end
  end.
  assert (Hsafe : safe prelude) by (apply safe_try; intro; apply safe_ret).
  destruct (Hsafe s) as ([] & sa & Hp).
  unfold bind at 1. rewrite Hp. cbv zeta.
  unfold try_except, bind, ret, check_output, ask. simpl.
  destruct (String.eqb (platform_system W) "Windows").
  - destruct (subprocess_check_output W (tick sa) (Argv ["ipconfig"]))
      as [output|e] eqn:Hout.
    + rewrite (Hipconfig _ _ Hout). eexists; reflexivity.
    + eexists; reflexivity.
  - destruct (String.eqb (platform_system W) "Linux"
              || String.eqb (platform_system W) "Darwin").
    + destruct (subprocess_check_output W (tick sa) (Argv ["ip"; "route"]))
        as [output|e] eqn:Hout.
      * rewrite (Hiproute _ _ Hout). eexists; reflexivity.
      * simpl.
        destruct (subprocess_check_output W (S (tick sa)) (Argv ["route"; "-n"]))
          as [output|e'] eqn:Hout'.
        -- rewrite (Hroute _ _ Hout'). eexists; reflexivity.
        -- eexists; reflexivity.
    + eexists; reflexivity.
Qed.

(** C10.  The name [get_default_gateway_ip] is bound twice and the call in
    the loop reaches the later definition, that of line 137.  On a host
    where none of that function's strategies parses a default gateway
    (each of [ipconfig], [ip route] and [route -n] fails or prints nothing
    its pattern matches) the call returns [None]; in general it returns
    [None] or the group a pattern matched and has no ["unknown"] of its
    own, unlike the definition of line 41, which returns ["unknown"] when
    nothing matched.  Probing the target [None] makes [subprocess] raise
    [TypeError] inside the [try] of [check_gateway_reachability], whose
    handler returns ["unknown"]; so on such a host every cycle collects
    the gateway [None] and the reachability ["unknown"]. *)
Theorem later_gateway_lookup_returns_none (W : World) :
  nothing_parsed W ->
  binding "get_default_gateway_ip" module_defs = Some 137%nat /\
  call_get_default_gateway_ip W = get_default_gateway_ip W /\
  (forall s, exists s1,
      call_get_default_gateway_ip W s = (Returns None, s1)) /\
  (forall s r s1,
      get_default_gateway_ip W s = (Returns r, s1) ->
      r = None \/
      exists pattern flag output, r = re_search W pattern flag output) /\
  (forall s, exists g s1,
      get_default_gateway_ip_line41 W s = (Returns g, s1) /\
      (g = "unknown" \/
       exists pattern flag output, re_search W pattern flag output = Some g)) /\
  (forall count s,
      check_output W (ping_command W None count) s = (Raises TypeError, s) /\
      check_gateway_reachability W None count s = (Returns "unknown", s)) /\
  (forall s m s1,
      collect W s = (Returns m, s1) ->
      m_gateway_ip m = None /\ m_gw_reach m = "unknown").
Proof.
  intros Hnothing.
  split; [reflexivity|]. split; [reflexivity|].
  split; [|split; [|split; [|split]]].
  - intros s. rewrite call_resolves_to_later_definition.
    apply (get_default_gateway_ip_nothing_parsed W s Hnothing).
  - intros s r s1. apply get_default_gateway_ip_result.
  - intros s. destruct (safe_get_default_gateway_ip_line41 W s) as (g & s1 & E).
    exists g, s1. split; [exact E|].
    apply (get_default_gateway_ip_line41_result W s g s1 E).
  - intros count s. split; [apply check_output_none_target|].
    apply (check_gateway_reachability_error W None count s TypeError s).
    apply check_output_none_target.
  - intros s m s1 Hc.
    destruct (collect_returns W s m s1 Hc)
      as ((sa & sb & Egw) & _ & (sc & sd & Ereach)).
    destruct (get_default_gateway_ip_nothing_parsed W sa Hnothing) as [sb' Enone].
    rewrite Egw in Enone. injection Enone as Hnone _.
    split; [exact Hnone|].
    rewrite Hnone in Ereach.
    rewrite (check_gateway_reachability_error W None 10 sc TypeError sc
               (check_output_none_target W 10 sc)) in Ereach.
    injection Ereach as <- _. reflexivity.
Qed.

Lemma later_gateway_lookup_returns_none_witness :
  let W := demo_world (Returns "10.0.0.0/8 dev tun0 scope link")
             (Returns "3 of 10 replied") in
  binding "get_default_gateway_ip" module_defs = Some 137%nat /\
  call_get_default_gateway_ip W = get_default_gateway_ip W /\
  (forall s, exists s1,
      call_get_default_gateway_ip W s = (Returns None, s1)) /\
  (forall s r s1,
      get_default_gateway_ip W s = (Returns r, s1) ->
      r = None \/
      exists pattern flag output, r = re_search W pattern flag output) /\
  (forall s, exists g s1,
      get_default_gateway_ip_line41 W s = (Returns g, s1) /\
      (g = "unknown" \/
       exists pattern flag output, re_search W pattern flag output = Some g)) /\
  (forall count s,
      check_output W (ping_command W None count) s = (Raises TypeError, s) /\
      check_gateway_reachability W None count s = (Returns "unknown", s)) /\
  (forall s m s1,
      collect W s = (Returns m, s1) ->
      m_gateway_ip m = None /\ m_gw_reach m = "unknown").
Proof.
  intros W.
  apply (later_gateway_lookup_returns_none W).
  repeat split; intros t output H; vm_compute in H;
    first [discriminate H | injection H as <-; reflexivity].
Defined.

(** A host whose routing table names no default route: the later definition
    gives [None] where the earlier one gives ["unknown"], and the cycle
    records the reachability ["unknown"]. *)
Example no_default_route :
  let W := demo_world (Returns "10.0.0.0/8 dev tun0 scope link")
             (Returns "3 of 10 replied") in
  let s := snd (initialize_database (boot no_files)) in
  fst (get_default_gateway_ip W s) = Returns None /\
  fst (get_default_gateway_ip_line41 W s) = Returns "unknown" /\
  map gw_reach (store_rows (files (snd (main_iteration W s)))) = ["unknown"].
Proof. repeat split; vm_compute; reflexivity. Qed.

(** * Further properties of the code *)

(** ** The order of the external calls *)

Lemma ticks_up_ret {A} (a : A) : ticks_up (ret a).
Proof. intros s. apply Nat.le_refl. Qed.

Lemma ticks_up_raise {A} (e : exn) : ticks_up (@raise A e).
Proof. intros s. apply Nat.le_refl. Qed.

Lemma ticks_up_lift {A} (o : outcome A) : ticks_up (lift o).
Proof. intros s. apply Nat.le_refl. Qed.

Lemma ticks_up_ask {A} (f : nat -> outcome A) : ticks_up (ask f).
Proof. intros s. simpl. apply Nat.le_succ_diag_r. Qed.

Lemma ticks_up_bind {A B} (m : M A) (k : A -> M B) :
  ticks_up m -> (forall a, ticks_up (k a)) -> ticks_up (bind m k).
Proof.
  intros Hm Hk s. unfold bind. specialize (Hm s).
  destruct (m s) as [[a|e] s1]; simpl in *.
  - specialize (Hk a s1). lia.
  - exact Hm.
Qed.

Lemma ticks_up_try {A} (m : M A) (h : exn -> M A) :
  ticks_up m -> (forall e, ticks_up (h e)) -> ticks_up (try_except m h).
Proof.
  intros Hm Hh s. unfold try_except. specialize (Hm s).
  destruct (m s) as [[a|e] s1]; simpl in *.
  - exact Hm.
  - specialize (Hh e s1). lia.
Qed.

Create HintDb ticks.
#[export] Hint Resolve ticks_up_ret ticks_up_raise ticks_up_lift ticks_up_ask
  : ticks.

Ltac ticks_walk :=
  repeat first
    [ progress cbv zeta
    | solve [auto with ticks]
    | apply ticks_up_bind
    | apply ticks_up_try
    | match goal with
      | |- forall _, _ => intro
      | |- ticks_up (match ?x with _ => _ end) => destruct x
      | |- ticks_up (if ?b then _ else _) => destruct b
      end ].

Section Ticks.

Variable W : World.

Lemma ticks_up_check_output args : ticks_up (check_output W args).
Proof. unfold check_output. ticks_walk. Qed.

Lemma ticks_up_check_output_shell line : ticks_up (check_output_shell W line).
Proof. unfold check_output_shell. ticks_walk. Qed.

Hint Resolve ticks_up_check_output ticks_up_check_output_shell : ticks.











(** Every call of a completed collection, in the order of lines 286-296,
    each starting in the state the one before it left. *)
Lemma collect_parts (s : state) (m : measurements) (s1 : state) :
  collect W s = (Returns m, s1) ->
  exists s_gw s_ts s_ip s_id s_ping s_sig s_speed s_isp s_reach,
    get_default_gateway_ip W s = (Returns (m_gateway_ip m), s_gw) /\
    get_current_timestamp W s_gw = (Returns (m_timestamp m), s_ts) /\
    get_router_ip W s_ts = (Returns (m_router_ip m), s_ip) /\
    get_router_mac W (m_router_ip m) s_ip = (Returns (m_router_id m), s_id) /\
    ping_router W (m_router_ip m) 10 s_id =
    (Returns (m_latency m, m_packet_loss m, m_jitter m), s_ping) /\
    get_signal_strength W s_ping = (Returns (m_signal_strength m), s_sig) /\
    get_speedtest W s_sig =
    (Returns (m_download_speed m, m_upload_speed m), s_speed) /\
    get_isp_name W s_speed = (Returns (m_isp_name m), s_isp) /\
    check_gateway_reachability W (m_gateway_ip m) 10 s_isp =
    (Returns (m_gw_reach m), s_reach) /\
    get_interface_ip W s_reach = (Returns (m_interface_ip m), s1).
Proof.
  unfold collect. rewrite call_resolves_to_later_definition. intros H.
  apply bind_returns in H. destruct H as (gateway_ip & s_gw & Egw & H).
  apply bind_returns in H. destruct H as (timestamp & s_ts & Ets & H).
  apply bind_returns in H. destruct H as (router_ip & s_ip & Eip & H).
  apply bind_returns in H. destruct H as (router_id & s_id & Eid & H).
  apply bind_returns in H. destruct H as ([[l p] j] & s_ping & Eping & H).
  apply bind_returns in H. destruct H as (signal & s_sig & Esig & H).
  apply bind_returns in H. destruct H as ([down up] & s_speed & Espeed & H).
  apply bind_returns in H. destruct H as (isp & s_isp & Eisp & H).
  apply bind_returns in H. destruct H as (reach & s_reach & Ereach & H).
  apply bind_returns in H. destruct H as (iip & s_iip & Eiip & H).
  unfold ret in H. injection H as <- <-. simpl.
  exists s_gw, s_ts, s_ip, s_id, s_ping, s_sig, s_speed, s_isp, s_reach.
  repeat split; assumption.
Qed.



End Ticks.

(** ** What a recorded row holds *)



(** ** The identifiers of the rows *)





(** ** The backup during a run *)

Lemma iterations_keep_backup (W : World) (n : nat) (s s2 : state) :
  table_ready (files s) ->
  iterations W n s = (Returns tt, s2) ->
  BACKUP_FILE (files s2) = BACKUP_FILE (files s).
Proof.
  revert s. induction n as [|n IH]; simpl; intros s Hready Hrun.
  - injection Hrun as <-. reflexivity.
  - apply bind_returns in Hrun. destruct Hrun as (c & s1 & Hit & Hrest).
    pose proof (main_iteration_keeps_table W s s1 c Hready Hit) as Hready1.
    rewrite (IH s1 Hready1 Hrest).
    pose proof (main_iteration_returns W s s1 c Hready Hit) as Hstep.
    destruct c.
    + rewrite Hstep. reflexivity.
    + destruct Hstep as (r & _ & _ & _ & _ & Hb). exact Hb.
Qed.

(** X6.  The backup is a snapshot of the start of the process: however many
    cycles have run, the backup path holds the data file as [main] found it
    (or, when there was none, whatever was at the backup path before); the
    rows recorded during the run never reach it. *)
Theorem backup_is_the_data_file_at_start
    (W : World) (n : nat) (s0 s : state) :
  main W n s0 = (Returns tt, s) ->
  BACKUP_FILE (files s) =
  match DB_FILE (files s0) with
  | Some d => Some d
  | None => BACKUP_FILE (files s0)
  end.
Proof.
  unfold main. intros Hrun.
  apply bind_returns in Hrun. destruct Hrun as ([] & s1 & Hinit & Hrest).
  pose proof (initialize_database_ready s0) as Hready.
  pose proof (initialize_database_result s0) as Hres.
  rewrite Hinit in Hready, Hres. simpl in Hready.
  rewrite (iterations_keep_backup W n s1 s Hready Hrest).
  injection Hres as ->. reflexivity.
Qed.

Lemma backup_is_the_data_file_at_start_witness :
  let W := demo_world route_ok (Returns "3 of 10 replied") in
  let d := {| new_probe_logs := Some {| t_rows := []; t_seq := 4 |} |} in
  let s0 := boot {| DB_FILE := Some d; BACKUP_FILE := None; csv_file := None |} in
  let s := snd (main W 2 s0) in
  BACKUP_FILE (files s) =
  match DB_FILE (files s0) with
  | Some d => Some d
  | None => BACKUP_FILE (files s0)
  end.
Proof.
  intros W d s0 s.
  apply (backup_is_the_data_file_at_start W 2 s0 s).
  vm_compute. reflexivity.
Defined.

(** ** The rhythm of the loop *)





(** ** A store that was never initialised *)

Lemma sqlite_insert_without_table (mk : Z -> row) (s : state) :
  (forall t, DB_FILE (files s) <> Some {| new_probe_logs := Some t |}) ->
  sqlite_insert mk s =
  (Raises OperationalError,
   {| tick := tick s;
      files :=
        set_DB_FILE
          (Some match DB_FILE (files s) with
                | Some d => d
                | None => empty_database
                end)
          (files s);
      sleeps := sleeps s |}).
Proof.
  intros Hno. unfold sqlite_insert, bind, get_files, put_files, raise.
  destruct (DB_FILE (files s)) as [[[t|]]|] eqn:Hdb; simpl.
  - exfalso. apply (Hno t). reflexivity.
  - reflexivity.
  - reflexivity.
Qed.

(** X14.  Without the table, which is what a cycle would find had
    [initialize_database] not run, a cycle that has a latency raises
    [OperationalError] out of [log_to_db]: no row is stored, the mirror is
    not touched, the loop does not sleep, and an empty data file is left
    behind where there was none. *)
Theorem cycle_without_table_raises (W : World) (s : state) m s1 l :
  (forall t, DB_FILE (files s) <> Some {| new_probe_logs := Some t |}) ->
  collect W s = (Returns m, s1) ->
  m_latency m = Some l ->
  exists s2,
    main_iteration W s = (Raises OperationalError, s2) /\
    DB_FILE (files s2) =
    Some match DB_FILE (files s) with
         | Some d => d
         | None => empty_database
         end /\
    store_rows (files s2) = [] /\
    csv_file (files s2) = csv_file (files s) /\
    BACKUP_FILE (files s2) = BACKUP_FILE (files s) /\
    sleeps s2 = sleeps s.
Proof.
  intros Hno Hc Hl.
  destruct (collect_complete W s m s1 l Hc Hl) as (p & j & Hp & Hj).
  destruct (quiet_collect W s) as [Hf Hs]. rewrite Hc in Hf, Hs. simpl in Hf, Hs.
  destruct (safe_get_active_interface W s1) as (iface & sa & Ea).
  destruct (quiet_get_active_interface W s1) as [Hfa Hsa].
  rewrite Ea in Hfa, Hsa. simpl in Hfa, Hsa.
  eexists. split.
  - unfold main_iteration. rewrite (bind_step _ _ _ _ _ Hc).
    unfold record_or_skip.
    set (body := log_to_db _ _ _ _ _ _ _ _ _ _ _ _ _) in *.
    rewrite Hl. unfold format_2f. rewrite Hp. subst body.
    unfold bind at 1. unfold ret at 1.
    apply bind_raises.
    unfold log_to_db. rewrite (bind_step _ _ _ _ _ Ea).
    unfold bind at 1. unfold ask at 1.
    apply sqlite_insert_without_table.
    simpl. rewrite Hfa, Hf. exact Hno.
  - simpl. rewrite Hfa, Hf, Hsa, Hs. unfold store_rows. simpl.
    destruct (DB_FILE (files s)) as [[[t|]]|] eqn:Hdb.
    + exfalso. apply (Hno t). reflexivity.
    + repeat split.
    + repeat split.
Qed.

Lemma cycle_without_table_raises_witness :
  let W := demo_world route_ok (Returns "3 of 10 replied") in
  let s := boot no_files in
  exists s2,
    main_iteration W s = (Raises OperationalError, s2) /\
    DB_FILE (files s2) = Some empty_database /\
    store_rows (files s2) = [] /\
    csv_file (files s2) = csv_file (files s) /\
    BACKUP_FILE (files s2) = BACKUP_FILE (files s) /\
    sleeps s2 = sleeps s.
Proof.
  intros W s.
  destruct (collect W s) as [[m|e] s1] eqn:Hc;
    [|vm_compute in Hc; discriminate Hc].
  assert (Hl : m_latency m = Some (21 # 1)%Q).
  { vm_compute in Hc. injection Hc as <- _. reflexivity. }
  apply (cycle_without_table_raises W s m s1 (21 # 1)%Q).
  - intros t H. discriminate H.
  - exact Hc.
  - exact Hl.
Defined.

(** ** The prober at its edges *)

(** X8.  With a count of zero the division of lines 94 and 189 raises inside
    the [try], whatever [ping] did: [ping_router] returns all [None] and
    [check_gateway_reachability] returns ["unknown"]; neither raises. *)
Theorem zero_count_degrades (W : World) ip target (s : state) :
  (exists s1, ping_router W ip 0 s = (Returns (None, None, None), s1)) /\
  (exists s1, check_gateway_reachability W target 0 s = (Returns "unknown", s1)).
Proof.
  split.
  - unfold ping_router, try_except, bind, lift.
    destruct (check_output W _ s) as [[output|e] s1].
    + destruct (mapM _ _) as [times|e]; eexists; reflexivity.
    + eexists; reflexivity.
  - unfold check_gateway_reachability, try_except, bind, lift.
    destruct (check_output W _ s) as [[output|e] s1]; eexists; reflexivity.
Qed.

(** X9.  The packet loss is not clamped: when the output of [ping] holds
    more reply times than probes were asked for (duplicate replies), the
    packet loss [ping_router] returns is negative. *)
Theorem surplus_replies_give_negative_loss
    (W : World) ip count s output s1 times :
  check_output W (ping_command W (Some ip) count) s = (Returns output, s1) ->
  reply_times W output = Returns times ->
  0 < count ->
  count < Z.of_nat (length times) ->
  exists latency packet_loss jitter,
    ping_router W ip count s = (Returns (latency, Some packet_loss, jitter), s1) /\
    (packet_loss < 0)%Q.
Proof.
  intros Hout Htimes Hcount Hk.
  eexists _, _, _. split.
  { apply (ping_router_parsed W ip count s output s1 times Hout Htimes). lia. }
  rewrite Qred_correct.
  assert (Hc : (0 < inject_Z count)%Q).
  { change 0%Q with (inject_Z 0). rewrite <- Zlt_Qlt. exact Hcount. }
  apply Qlt_shift_div_r; [exact Hc|].
  rewrite Qmult_0_l. change 0%Q with (inject_Z 0). rewrite <- Zlt_Qlt. lia.
Qed.

Lemma surplus_replies_give_negative_loss_witness :
  let W := demo_world route_ok (Returns "10 of 10 replied") in
  exists latency packet_loss jitter,
    ping_router W "192.168.1.1" 4 (boot no_files) =
    (Returns (latency, Some packet_loss, jitter),
     {| tick := 1; files := no_files; sleeps := [] |}) /\
    (packet_loss < 0)%Q.
Proof.
  intros W.
  apply (surplus_replies_give_negative_loss W "192.168.1.1" 4 (boot no_files)
           "10 of 10 replied" _
           (map inject_Z [10; 12; 11; 13; 14; 10; 11; 12; 13; 11])).
  - reflexivity.
  - reflexivity.
  - reflexivity.
  - reflexivity.
Defined.

(** *** A steady series *)

Lemma Qsum_const (a : Q) (l : list Q) :
  Forall (fun x => (x == a)%Q) l ->
  (Qsum l == inject_Z (Z.of_nat (length l)) * a)%Q.
Proof.
  induction 1 as [|x l Hx _ IH].
  - simpl. ring.
  - change (Qsum (x :: l)) with (x + Qsum l)%Q.
    change (length (x :: l)) with (S (length l)).
    cbv beta in Hx. rewrite IH, Hx.
    rewrite Nat2Z.inj_succ. unfold Z.succ. rewrite inject_Z_plus.
    change (inject_Z 1) with 1%Q. ring.
Qed.

Lemma Qsum_zero (l : list Q) :
  Forall (fun x => (x == 0)%Q) l -> (Qsum l == 0)%Q.
Proof.
  intros H. rewrite (Qsum_const 0 l H). ring.
Qed.

Lemma length_positive (l : list Q) :
  l <> [] -> (0 < inject_Z (Z.of_nat (length l)))%Q.
Proof.
  intros Hne. change 0%Q with (inject_Z 0). rewrite <- Zlt_Qlt.
  destruct l; [contradiction | simpl; lia].
Qed.

Lemma mean_of_steady_series (a : Q) (l : list Q) :
  l <> [] -> Forall (fun x => (x == a)%Q) l -> (statistics_mean l == a)%Q.
Proof.
  intros Hne Hall. rewrite statistics_mean_is_mean. unfold arithmetic_mean.
  rewrite (Qsum_const a l Hall).
  pose proof (length_positive l Hne) as Hpos.
  field. intros E. rewrite E in Hpos. apply (Qlt_irrefl 0). exact Hpos.
Qed.

Lemma variance_of_steady_series (a : Q) (l : list Q) :
  l <> [] -> Forall (fun x => (x == a)%Q) l -> statistics_variance l = 0%Q.
Proof.
  intros Hne Hall. unfold statistics_variance.
  change 0%Q with (Qred 0). apply Qred_complete.
  pose proof (mean_of_steady_series a l Hne Hall) as Hmean.
  rewrite Qsum_zero.
  - unfold Qdiv. ring.
  - apply Forall_map. eapply Forall_impl; [|exact Hall].
    simpl. intros x Hx. rewrite Hx, Hmean. ring.
Qed.

(** X10.  Replies that all took the same time give a jitter of exactly
    [0.0], however many there are. *)
Theorem steady_replies_have_no_jitter
    (W : World) ip count s output s1 times a :
  check_output W (ping_command W (Some ip) count) s = (Returns output, s1) ->
  reply_times W output = Returns times ->
  count <> 0 ->
  Forall (fun x => (x == a)%Q) times ->
  exists latency packet_loss,
    ping_router W ip count s = (Returns (latency, packet_loss, Some 0%Q), s1).
Proof.
  intros Hout Htimes Hcount Hall.
  rewrite (ping_router_parsed W ip count s output s1 times Hout Htimes Hcount).
  eexists _, _. repeat f_equal.
  destruct (1 <? length times)%nat eqn:Hlen; [|reflexivity].
  unfold round2_stdev.
  rewrite (variance_of_steady_series a times); [reflexivity | | exact Hall].
  destruct times; [discriminate Hlen | discriminate].
Qed.

Lemma steady_replies_have_no_jitter_witness :
  let W := with_steady_replies
             (demo_world route_ok (Returns "4 of 10 replied")) in
  exists latency packet_loss,
    ping_router W "192.168.1.1" 10 (boot no_files) =
    (Returns (latency, packet_loss, Some 0%Q),
     {| tick := 1; files := no_files; sleeps := [] |}).
Proof.
  intros W.
  apply (steady_replies_have_no_jitter W "192.168.1.1" 10 (boot no_files)
           "4 of 10 replied" _ (map inject_Z [5; 5; 5; 5]) (inject_Z 5)).
  - reflexivity.
  - reflexivity.
  - discriminate.
  - repeat constructor.
Defined.

(** *** The latency among the replies *)

Lemma Qsum_between (lo hi : Q) (l : list Q) :
  Forall (fun x => (lo <= x <= hi)%Q) l ->
  (inject_Z (Z.of_nat (length l)) * lo <= Qsum l <=
   inject_Z (Z.of_nat (length l)) * hi)%Q.
Proof.
  induction 1 as [|x l Hx _ IH].
  - simpl. change (inject_Z 0) with 0%Q. lra.
  - change (Qsum (x :: l)) with (x + Qsum l)%Q.
    change (length (x :: l)) with (S (length l)).
    rewrite Nat2Z.inj_succ. unfold Z.succ. rewrite inject_Z_plus.
    change (inject_Z 1) with 1%Q. cbv beta in Hx.
    rewrite !Qmult_plus_distr_l, !Qmult_1_l. lra.
Qed.

Lemma mean_between (lo hi : Q) (l : list Q) :
  l <> [] ->
  Forall (fun x => (lo <= x <= hi)%Q) l ->
  (lo <= arithmetic_mean l <= hi)%Q.
Proof.
  intros Hne Hall. unfold arithmetic_mean.
  pose proof (length_positive l Hne) as Hpos.
  destruct (Qsum_between lo hi l Hall) as [Hlo Hhi].
  split.
  - apply Qle_shift_div_l; [exact Hpos|]. rewrite Qmult_comm. exact Hlo.
  - apply Qle_shift_div_r; [exact Hpos|]. rewrite Qmult_comm. exact Hhi.
Qed.

(** X11.  The latency is never outside the replies it summarises: when every
    reply time lies between [lo] and [hi], the latency [ping_router] returns
    lies between them too, up to the half hundredth that rounding to two
    decimals can add. *)
Theorem latency_lies_among_the_replies
    (W : World) ip count s output s1 times lo hi :
  check_output W (ping_command W (Some ip) count) s = (Returns output, s1) ->
  reply_times W output = Returns times ->
  count <> 0 ->
  times <> [] ->
  Forall (fun x => (lo <= x <= hi)%Q) times ->
  exists latency packet_loss jitter,
    ping_router W ip count s = (Returns (Some latency, packet_loss, jitter), s1) /\
    (lo - (1 # 200) <= latency <= hi + (1 # 200))%Q.
Proof.
  intros Hout Htimes Hcount Hne Hall.
  rewrite (ping_router_parsed W ip count s output s1 times Hout Htimes Hcount).
  destruct times as [|t times]; [contradiction|].
  eexists _, _, _. split; [reflexivity|].
  destruct (round2_rounds (statistics_mean (t :: times))) as [_ Hclose].
  apply Qabs_Qle_condition in Hclose.
  pose proof (statistics_mean_is_mean (t :: times)) as Emean.
  destruct (mean_between lo hi (t :: times) Hne Hall) as [Hlo Hhi].
  split; lra.
Qed.

Lemma latency_lies_among_the_replies_witness :
  let W := demo_world route_ok (Returns "3 of 10 replied") in
  exists latency packet_loss jitter,
    ping_router W "192.168.1.1" 10 (boot no_files) =
    (Returns (Some latency, packet_loss, jitter),
     {| tick := 1; files := no_files; sleeps := [] |}) /\
    (20 - (1 # 200) <= latency <= 22 + (1 # 200))%Q.
Proof.
  intros W.
  apply (latency_lies_among_the_replies W "192.168.1.1" 10 (boot no_files)
           "3 of 10 replied" _ (map inject_Z [20; 22; 21])).
  - reflexivity.
  - reflexivity.
  - discriminate.
  - discriminate.
  - repeat constructor; discriminate.
Defined.

(** ** Reachability at the extremes *)

Lemma Qred_of_one (q : Q) : (q == 1)%Q -> Qred q = 1%Q.
Proof. intros E. change 1%Q with (Qred 1). apply Qred_complete. exact E. Qed.

Lemma Qred_of_zero (q : Q) : (q == 0)%Q -> Qred q = 0%Q.
Proof. intros E. change 0%Q with (Qred 0). apply Qred_complete. exact E. Qed.

(** X12.  When [ping] ran with a positive count, a reply to every probe is
    reported as ["100%"] and no reply at all as ["0%"]: an unreachable
    gateway whose [ping] still exits normally is ["0%"], not ["unknown"]. *)
Theorem reachability_at_the_extremes (W : World) ip count s output s1 :
  0 < count ->
  check_output W (ping_command W ip count) s = (Returns output, s1) ->
  let received :=
    Z.of_nat (length (re_findall W "time[=<](\d+(?:\.\d+)?)" output)) in
  (received = count ->
   check_gateway_reachability W ip count s = (Returns "100%", s1)) /\
  (received = 0 ->
   check_gateway_reachability W ip count s = (Returns "0%", s1)).
Proof.
  intros Hcount Hout received. subst received.
  assert (Hne : count <> 0) by lia.
  rewrite (check_gateway_reachability_ran W ip count s output s1 Hne Hout).
  split; intros ->.
  - rewrite (Qred_of_one (inject_Z count / inject_Z count)); [reflexivity|].
    apply Qmult_inv_r. intros E.
    unfold Qeq in E. simpl in E. lia.
  - rewrite (Qred_of_zero (inject_Z 0 / inject_Z count)); [reflexivity|].
    unfold Qdiv. apply Qmult_0_l.
Qed.

Lemma reachability_at_the_extremes_witness :
  let W := demo_world route_ok (Returns "10 of 10 replied") in
  let ip := Some "192.168.1.1" in
  let s1 := {| tick := 1; files := no_files; sleeps := [] |} in
  (10 = 10 ->
   check_gateway_reachability W ip 10 (boot no_files) = (Returns "100%", s1)) /\
  (10 = 0 ->
   check_gateway_reachability W ip 10 (boot no_files) = (Returns "0%", s1)).
Proof.
  intros W ip s1.
  apply (reachability_at_the_extremes W ip 10 (boot no_files)
           "10 of 10 replied" s1).
  - reflexivity.
  - reflexivity.
Defined.

(** ** Exporting *)

Lemma latest_is_maximal (rows : list row) (r : row) :
  latest rows = Some r ->
  In r rows /\ Forall (fun r' => id r' <= id r) rows.
Proof.
  revert r. induction rows as [|a rows IH]; simpl; intros r H.
  - discriminate H.
  - destruct (latest rows) as [r'|] eqn:Hl.
    + destruct (IH r' eq_refl) as [Hin Hall].
      destruct (Z.ltb_spec (id a) (id r')) as [Hlt|Hge];
        injection H as <-.
      * split; [right; exact Hin|].
        constructor; [lia | exact Hall].
      * split; [left; reflexivity|].
        constructor; [lia|].
        eapply Forall_impl; [|exact Hall]. simpl. intros x Hx. lia.
    + injection H as <-. destruct rows as [|b rows].
      * split; [left; reflexivity | repeat constructor; lia].
      * simpl in Hl. destruct (latest rows) as [r''|];
          [destruct (id b <? id r'')|]; discriminate Hl.
Qed.

Lemma latest_of_nonempty (rows : list row) :
  rows <> [] -> exists r, latest rows = Some r.
Proof.
  destruct rows as [|a rows]; [contradiction|]. intros _. simpl.
  destruct (latest rows) as [r'|]; [destruct (id a <? id r')|]; eexists;
    reflexivity.
Qed.

(** X13.  [export_to_csv] writes the row of largest id, and it keeps no
    record of what it has written: called again with nothing inserted in
    between it appends the same row a second time.  The mirror follows the
    store only because the loop exports once per insert. *)
Theorem export_twice_duplicates (W : World) (s : state) (t : table) :
  DB_FILE (files s) = Some {| new_probe_logs := Some t |} ->
  t_rows t <> [] ->
  exists r o1 s1 o2 s2,
    In r (t_rows t) /\
    Forall (fun r' => id r' <= id r) (t_rows t) /\
    export_to_csv W s = (o1, s1) /\
    export_to_csv W s1 = (o2, s2) /\
    (stdout_encodes_unicode W = true -> o1 = Returns tt /\ o2 = Returns tt) /\
    csv_file (files s1) =
    Some (opened_for_append (csv_file (files s)) ++ [row_values r])%list /\
    csv_file (files s2) =
    Some (opened_for_append (csv_file (files s)) ++
          [row_values r; row_values r])%list /\
    store_rows (files s2) = store_rows (files s).
Proof.
  intros Hdb Hne.
  destruct (latest_of_nonempty (t_rows t) Hne) as [r Hr].
  destruct (latest_is_maximal (t_rows t) r Hr) as [Hin Hall].
  exists r. eexists _, _, _, _.
  split; [exact Hin | split; [exact Hall|]].
  split; [apply (export_to_csv_appends W s t Hdb)|].
  split; [apply (export_to_csv_appends W _ t); simpl; exact Hdb|].
  split; [intros ->; split; reflexivity|].
  simpl. rewrite Hr. simpl. rewrite <- app_assoc.
  unfold store_rows. simpl. repeat split.
Qed.

Lemma export_twice_duplicates_witness :
  let W := demo_world route_ok (Returns "3 of 10 replied") in
  let s := snd (main W 1 (boot no_files)) in
  let t := {| t_rows := store_rows (files s); t_seq := 1 |} in
  exists r o1 s1 o2 s2,
    In r (t_rows t) /\
    Forall (fun r' => id r' <= id r) (t_rows t) /\
    export_to_csv W s = (o1, s1) /\
    export_to_csv W s1 = (o2, s2) /\
    (stdout_encodes_unicode W = true -> o1 = Returns tt /\ o2 = Returns tt) /\
    csv_file (files s1) =
    Some (opened_for_append (csv_file (files s)) ++ [row_values r])%list /\
    csv_file (files s2) =
    Some (opened_for_append (csv_file (files s)) ++
          [row_values r; row_values r])%list /\
    store_rows (files s2) = store_rows (files s).
Proof.
  intros W s t.
  apply (export_twice_duplicates W s t).
  - vm_compute. reflexivity.
  - vm_compute. discriminate.
Defined.

(** ** The hardware address of the router *)

Lemma substring_of_prefix (sub post : string) :
  substring 0 (String.length sub) (sub ++ post) = sub.
Proof.
  induction sub as [|c sub IH]; simpl.
  - destruct post; reflexivity.
  - rewrite IH. reflexivity.
Qed.

Lemma substring_after_prefix (pre s : string) (n : nat) :
  substring (String.length pre) n (pre ++ s) = substring 0 n s.
Proof.
  induction pre as [|c pre IH]; simpl; [reflexivity | exact IH].
Qed.

(** [contains] is containment as a substring. *)
Lemma contains_substring (sub pre post : string) :
  contains sub (pre ++ sub ++ post) = true.
Proof.
  unfold contains.
  destruct (index 0 sub (pre ++ sub ++ post)) as [m|] eqn:Hidx; [reflexivity|].
  exfalso. destruct sub as [|c sub].
  - destruct (pre ++ "" ++ post); simpl in Hidx; discriminate Hidx.
  - apply (index_correct3 0 (String.length pre) _ _ Hidx);
      [discriminate | apply Nat.le_0_l |].
    rewrite substring_after_prefix. apply substring_of_prefix.
Qed.

Section RouterMac.

Variable W : World.

Lemma find_mac_first_match (ip : string) (lines : list string) (g : string) :
  find_mac W ip lines = Some g ->
  exists before line after,
    lines = (before ++ line :: after)%list /\
    contains ip line = true /\
    re_search W "(([0-9a-f]{2}[:-]){5}([0-9a-f]{2}))" false (str_lower W line)
    = Some g /\
    Forall (fun l =>
              contains ip l = false \/
              re_search W "(([0-9a-f]{2}[:-]){5}([0-9a-f]{2}))" false
                (str_lower W l) = None) before.
Proof.
  induction lines as [|line lines IH]; simpl; intros H.
  - discriminate H.
  - destruct (contains ip line) eqn:Hin.
    + destruct (re_search W _ false (str_lower W line)) as [g'|] eqn:Hre.
      * injection H as <-. exists [], line, lines.
        repeat split; [exact Hin | exact Hre | constructor].
      * destruct (IH H) as (before & l & after & -> & Hc & Hs & Hall).
        exists (line :: before), l, after.
        repeat split; [exact Hc | exact Hs |].
        constructor; [right; exact Hre | exact Hall].
    + destruct (IH H) as (before & l & after & -> & Hc & Hs & Hall).
      exists (line :: before), l, after.
      repeat split; [exact Hc | exact Hs |].
      constructor; [left; exact Hin | exact Hall].
Qed.

Lemma find_mac_no_match (ip : string) (lines : list string) :
  find_mac W ip lines = None ->
  Forall (fun l =>
            contains ip l = false \/
            re_search W "(([0-9a-f]{2}[:-]){5}([0-9a-f]{2}))" false
              (str_lower W l) = None) lines.
Proof.
  induction lines as [|line lines IH]; simpl; intros H.
  - constructor.
  - destruct (contains ip line) eqn:Hin.
    + destruct (re_search W _ false (str_lower W line)) as [g'|] eqn:Hre;
        [discriminate H|].
      constructor; [right; exact Hre | exact (IH H)].
    + constructor; [left; exact Hin | exact (IH H)].
Qed.

(** X1.  [get_router_mac] never raises, and what it returns is decided by
    what the two commands it runs answer.  When the single [ping] and
    [arp -a] both run, it is the address found on the first line of the
    output of [arp -a] that both contains the IP as a substring and shows a
    hardware address, every line before it lacking one or the other, and
    ["unknown"] when no line has both; when either command raises it is
    ["unknown"].  The test is containment, so a line for another host whose
    address has the router's inside it (192.168.1.10 for 192.168.1.1)
    counts as a line of the router. *)
Theorem router_mac_is_first_line_containing_ip (ip : string) (s : state) :
  (exists v s1,
      get_router_mac W ip s = (Returns v, s1) /\
      match subprocess_run W (tick s)
              (Shell (if negb (String.eqb (platform_system W) "Windows")
                      then "ping -c 1 " ++ ip else "ping -n 1 " ++ ip)),
            subprocess_check_output W (S (tick s)) (Shell "arp -a") with
      | Returns _, Returns arp_output =>
          (exists before line after,
              str_splitlines W arp_output = (before ++ line :: after)%list /\
              contains ip line = true /\
              re_search W "(([0-9a-f]{2}[:-]){5}([0-9a-f]{2}))" false
                (str_lower W line) = Some v /\
              Forall (fun l =>
                        contains ip l = false \/
                        re_search W "(([0-9a-f]{2}[:-]){5}([0-9a-f]{2}))" false
                          (str_lower W l) = None) before) \/
          (v = "unknown" /\
           Forall (fun l =>
                     contains ip l = false \/
                     re_search W "(([0-9a-f]{2}[:-]){5}([0-9a-f]{2}))" false
                       (str_lower W l) = None)
             (str_splitlines W arp_output))
      | _, _ => v = "unknown"
      end) /\
  (forall pre post, contains ip (pre ++ ip ++ post) = true).
Proof.
  split; [|intros pre post; apply contains_substring].
  unfold get_router_mac, try_except, bind, check_output_shell, ask, ret.
  cbv zeta.
  destruct (subprocess_run W (tick s) _) as [[]|e].
  - simpl.
    destruct (subprocess_check_output W (S (tick s)) (Shell "arp -a"))
      as [arp_output|e].
    + destruct (find_mac W ip (str_splitlines W arp_output)) as [g|] eqn:Hfind.
      * eexists g, _. split; [reflexivity|]. left.
        apply (find_mac_first_match ip _ g Hfind).
      * eexists _, _. split; [reflexivity|]. right.
        split; [reflexivity | apply (find_mac_no_match ip _ Hfind)].
    + eexists _, _. split; reflexivity.
  - eexists _, _. split; reflexivity.
Qed.

End RouterMac.

(** An ARP table that lists 192.168.1.10 before the router 192.168.1.1: the
    address returned for the router is that of the other host. *)
Example router_mac_of_the_wrong_host :
  let W :=
    {| platform_system := "Linux";
       subprocess_check_output := fun _ _ =>
         Returns "host (192.168.1.10) at 11:11:11:11:11:11|gw (192.168.1.1) at aa:aa:aa:aa:aa:aa";
       subprocess_run := fun _ _ => Returns tt;
       datetime_now := datetime_now (demo_world route_ok route_ok);
       socket_local_address := fun _ => Raises OSError;
       psutil_net_if_addrs := fun _ => Raises OSError;
       psutil_net_if_stats := fun _ => Raises OSError;
       speedtest_measure := fun _ => Raises OSError;
       requests_get := fun _ _ => Raises OSError;
       re_search := fun _ _ line =>
         if contains "11:11:11:11:11:11" line then Some "11:11:11:11:11:11"
         else if contains "aa:aa:aa:aa:aa:aa" line then Some "aa:aa:aa:aa:aa:aa"
         else None;
       re_findall := fun _ _ => [];
       py_float := demo_float;
       py_int := demo_int;
       str_splitlines := fun _ =>
         ["host (192.168.1.10) at 11:11:11:11:11:11";
          "gw (192.168.1.1) at aa:aa:aa:aa:aa:aa"];
       str_lower := fun line => line;
       stdout_encodes_unicode := true |} in
  fst (get_router_mac W "192.168.1.1" (boot no_files))
  = Returns "11:11:11:11:11:11".
Proof. vm_compute. reflexivity. Qed.

(** ** The active interface *)

Lemma find_interface_first (local : string)
    (interfaces : list (string * list string)) (name : string) :
  find_interface local interfaces = Some name ->
  exists before addresses after,
    interfaces = (before ++ (name, addresses) :: after)%list /\
    In local addresses /\
    Forall (fun entry => ~ In local (snd entry)) before.
Proof.
  induction interfaces as [|[n addrs] rest IH]; simpl; intros H.
  - discriminate H.
  - destruct (existsb (String.eqb local) addrs) eqn:Hex.
    + injection H as <-. exists [], addrs, rest.
      split; [reflexivity | split; [|constructor]].
      apply existsb_exists in Hex. destruct Hex as (a & Hin & Heq).
      apply String.eqb_eq in Heq. subst a. exact Hin.
    + destruct (IH H) as (before & addresses & after & -> & Hin & Hall).
      exists ((n, addrs) :: before), addresses, after.
      split; [reflexivity | split; [exact Hin|]].
      constructor; [|exact Hall]. simpl. intros Hin'.
      assert (Hyes : existsb (String.eqb local) addrs = true).
      { apply existsb_exists. exists local.
        split; [exact Hin' | apply String.eqb_refl]. }
      rewrite Hyes in Hex. discriminate Hex.
Qed.

Lemma find_interface_none (local : string)
    (interfaces : list (string * list string)) :
  find_interface local interfaces = None ->
  Forall (fun entry => ~ In local (snd entry)) interfaces.
Proof.
  induction interfaces as [|[n addrs] rest IH]; simpl; intros H.
  - constructor.
  - destruct (existsb (String.eqb local) addrs) eqn:Hex; [discriminate H|].
    constructor; [|exact (IH H)]. simpl. intros Hin'.
    assert (Hyes : existsb (String.eqb local) addrs = true).
    { apply existsb_exists. exists local.
      split; [exact Hin' | apply String.eqb_refl]. }
    rewrite Hyes in Hex. discriminate Hex.
Qed.

(** X2.  [get_active_interface] never raises.  When the socket gives the
    local address and psutil the interfaces, it returns the first interface,
    in psutil's order, that has that address among its own, and ["Unknown"]
    when none has; when either call raises it returns ["Unknown"] as well,
    with a capital U, unlike the ["unknown"] of the other lookups. *)
Theorem active_interface_is_first_with_local_address (W : World) (s : state) :
  exists v s1,
    get_active_interface W s = (Returns v, s1) /\
    match socket_local_address W (tick s),
          psutil_net_if_addrs W (S (tick s)) with
    | Returns local, Returns interfaces =>
        (exists before addresses after,
            interfaces = (before ++ (v, addresses) :: after)%list /\
            In local addresses /\
            Forall (fun entry => ~ In local (snd entry)) before) \/
        (v = "Unknown" /\
         Forall (fun entry => ~ In local (snd entry)) interfaces)
    | _, _ => v = "Unknown"
    end.
Proof.
  unfold get_active_interface, try_except, bind, ask, ret. simpl.
  destruct (socket_local_address W (tick s)) as [local|e]; simpl.
  - destruct (psutil_net_if_addrs W (S (tick s))) as [interfaces|e]; simpl.
    + destruct (find_interface local interfaces) as [name|] eqn:Hfind.
      * eexists name, _. split; [reflexivity|]. left.
        apply (find_interface_first local interfaces name Hfind).
      * eexists _, _. split; [reflexivity|]. right.
        split; [reflexivity | apply (find_interface_none _ _ Hfind)].
    + eexists _, _. split; reflexivity.
  - eexists _, _. split; reflexivity.
Qed.

(** ** The speed test *)

(** X3.  [get_speedtest] never raises, and its two results stand or fall
    together: when the speed test raises both are [None]; otherwise both
    are present, each the measured bit rate divided by a million and rounded
    to two decimals. *)
Theorem speedtest_gives_both_or_neither (W : World) (s : state) :
  exists download upload s1,
    get_speedtest W s = (Returns (download, upload), s1) /\
    match speedtest_measure W (tick s) with
    | Raises _ => download = None /\ upload = None
    | Returns (down, up) =>
        exists d u,
          download = Some d /\ upload = Some u /\
          rounded_to_2_decimals (down / 1000000) d /\
          rounded_to_2_decimals (up / 1000000) u
    end.
Proof.
  unfold get_speedtest, try_except, bind, ask, ret. simpl.
  destruct (speedtest_measure W (tick s)) as [[down up]|e]; simpl.
  - eexists _, _, _. split; [reflexivity|].
    eexists _, _. repeat split; try apply round2_rounds.
  - eexists _, _, _. split; [reflexivity | split; reflexivity].
Qed.

(** ** A cycle without its collaborators *)

Section Collaborators.

Variable W : World.

Hypothesis no_socket : forall t, exists e, socket_local_address W t = Raises e.
Hypothesis no_speedtest : forall t, exists e, speedtest_measure W t = Raises e.
Hypothesis no_http : forall t url, exists e, requests_get W t url = Raises e.
Hypothesis no_netsh :
  forall t,
    subprocess_check_output W t (Shell "netsh wlan show interfaces")
    = Raises CalledProcessError.

Lemma get_active_interface_offline s v s1 :
  get_active_interface W s = (Returns v, s1) -> v = "Unknown".
Proof.
  unfold get_active_interface, try_except, bind, ask, ret. simpl.
  destruct (no_socket (tick s)) as [e ->]. simpl.
  intros H. injection H as <- _. reflexivity.
Qed.

Lemma get_interface_ip_offline s v s1 :
  get_interface_ip W s = (Returns v, s1) -> v = "unknown".
Proof.
  unfold get_interface_ip, try_except, ask, ret. simpl.
  destruct (no_socket (tick s)) as [e ->].
  intros H. injection H as <- _. reflexivity.
Qed.

Lemma get_speedtest_offline s v s1 :
  get_speedtest W s = (Returns v, s1) -> v = (None, None).
Proof.
  unfold get_speedtest, try_except, bind, ask, ret. simpl.
  destruct (no_speedtest (tick s)) as [e ->].
  intros H. injection H as <- _. reflexivity.
Qed.

Lemma get_isp_name_offline s v s1 :
  get_isp_name W s = (Returns v, s1) -> v = "unknown".
Proof.
  unfold get_isp_name, try_except, bind, ask, ret. simpl.
  destruct (no_http (tick s) "https://ipinfo.io/json") as [e ->].
  intros H. injection H as <- _. reflexivity.
Qed.

Lemma get_signal_strength_offline s v s1 :
  get_signal_strength W s = (Returns v, s1) -> v = "unknown".
Proof.
  unfold get_signal_strength, try_except, bind, check_output_shell, ask, ret.
  simpl. rewrite no_netsh. simpl.
  intros H. injection H as <- _. reflexivity.
Qed.

Lemma recorded_offline (n : nat) (s0 s : state) m s1 l :
  main W n s0 = (Returns tt, s) ->
  collect W s = (Returns m, s1) ->
  m_latency m = Some l ->
  exists o s2 r,
    main_iteration W s = (o, s2) /\
    (stdout_encodes_unicode W = true -> o = Returns Recorded) /\
    store_rows (files s2) = (store_rows (files s) ++ [r])%list /\
    latency r = Some l /\
    download_speed r = None /\ upload_speed r = None /\
    isp_name r = "unknown" /\ signal_strength r = "unknown" /\
    interface_ip r = "unknown" /\ interface r = "Unknown".
Proof.
  intros Hrun Hc Hl.
  destruct (main_reaches_ready W n s0 s Hrun) as [t Hdb].
  destruct (collect_parts W s m s1 Hc)
    as (s_gw & s_ts & s_ip & s_id & s_ping & s_sig & s_speed & s_isp & s_reach
        & _ & _ & _ & _ & _ & Esig & Espeed & Eisp & _ & Eiip).
  apply get_signal_strength_offline in Esig.
  apply get_speedtest_offline in Espeed. injection Espeed as Edown Eup.
  apply get_isp_name_offline in Eisp.
  apply get_interface_ip_offline in Eiip.
  destruct (main_iteration_cases W s t Hdb)
    as [(e & s1' & Hc' & _)
       | [(m' & s1' & Hc' & Hl' & _)
         | [(m' & s1' & l' & p & j & iface & sa & Hout & Hc' & _ & _ & _ & Ea & E)
           | (m' & s1' & l' & p & j & iface & sa & Hout & Hc' & _ & _ & _ & Ea & E)]]];
    rewrite Hc in Hc'.
  - discriminate Hc'.
  - injection Hc' as <- _. rewrite Hl in Hl'. discriminate Hl'.
  - injection Hc' as <- <-.
    apply get_active_interface_offline in Ea. subst iface.
    eexists _, _, _. split; [exact E|]. split; [reflexivity|].
    unfold store_rows. rewrite Hdb. simpl.
    repeat split; assumption.
  - injection Hc' as <- <-.
    apply get_active_interface_offline in Ea. subst iface.
    eexists _, _, _. split; [exact E|].
    split; [intros Hyes; rewrite Hyes in Hout; discriminate Hout|].
    unfold store_rows. rewrite Hdb. simpl.
    repeat split; assumption.
Qed.

End Collaborators.

(** X4.  The collaborators never stop a cycle.  On a host where the socket,
    the speed test and the HTTP lookup always raise and [netsh] exits with
    an error, a cycle with a latency still stores its row (and ends as
    recorded where the standard output can show the progress messages): the speeds are
    absent, the ISP, the signal strength and the interface address are
    ["unknown"], and the interface is ["Unknown"]. *)
Theorem cycle_is_recorded_without_collaborators
    (W : World) (n : nat) (s0 s : state) m s1 l :
  (forall t, exists e, socket_local_address W t = Raises e) ->
  (forall t, exists e, speedtest_measure W t = Raises e) ->
  (forall t url, exists e, requests_get W t url = Raises e) ->
  (forall t,
      subprocess_check_output W t (Shell "netsh wlan show interfaces")
      = Raises CalledProcessError) ->
  main W n s0 = (Returns tt, s) ->
  collect W s = (Returns m, s1) ->
  m_latency m = Some l ->
  exists o s2 r,
    main_iteration W s = (o, s2) /\
    (stdout_encodes_unicode W = true -> o = Returns Recorded) /\
    store_rows (files s2) = (store_rows (files s) ++ [r])%list /\
    latency r = Some l /\
    download_speed r = None /\ upload_speed r = None /\
    isp_name r = "unknown" /\ signal_strength r = "unknown" /\
    interface_ip r = "unknown" /\ interface r = "Unknown".
Proof.
  intros Hsocket Hspeed Hhttp Hnetsh.
  apply (recorded_offline W Hsocket Hspeed Hhttp Hnetsh).
Qed.

Lemma cycle_is_recorded_without_collaborators_witness :
  let W := without_collaborators
             (demo_world route_ok (Returns "3 of 10 replied")) in
  let s := snd (main W 0 (boot no_files)) in
  exists o s2 r,
    main_iteration W s = (o, s2) /\
    (stdout_encodes_unicode W = true -> o = Returns Recorded) /\
    store_rows (files s2) = (store_rows (files s) ++ [r])%list /\
    latency r = Some (21 # 1)%Q /\
    download_speed r = None /\ upload_speed r = None /\
    isp_name r = "unknown" /\ signal_strength r = "unknown" /\
    interface_ip r = "unknown" /\ interface r = "Unknown".
Proof.
  intros W s.
  destruct (collect W s) as [[m|e] s1] eqn:Hc;
    [|vm_compute in Hc; discriminate Hc].
  assert (Hl : m_latency m = Some (21 # 1)%Q).
  { vm_compute in Hc. injection Hc as <- _. reflexivity. }
  apply (cycle_is_recorded_without_collaborators W 0 (boot no_files) s m s1).
  - intros t. exists OSError. reflexivity.
  - intros t. eexists. reflexivity.
  - intros t url. eexists. reflexivity.
  - intros t. reflexivity.
  - reflexivity.
  - exact Hc.
  - exact Hl.
Defined.

(** ** The fallback of the gateway lookup *)

(** X17.  On Linux and Darwin the lookup of line 137 asks [route -n] only
    when running [ip route] raised.  An [ip route] that ran decides the
    result alone: its default route if the pattern finds one and [None] if
    not, without [route -n] being asked.  The psutil calls before it change
    neither the result nor the files. *)
Theorem route_fallback_only_on_error (W : World) (s : state) :
  platform_system W = "Linux" \/ platform_system W = "Darwin" ->
  exists sa,
    files sa = files s /\ (tick s <= tick sa)%nat /\
    match check_output W [Some "ip"; Some "route"] sa with
    | (Returns output, sb) =>
        get_default_gateway_ip W s =
        (Returns (re_search W "default via ([\d.]+)" false output), sb)
    | (Raises _, sb) =>
        match check_output W [Some "route"; Some "-n"] sb with
        | (Returns output, sc) =>
            get_default_gateway_ip W s =
            (Returns (re_search W "^0.0.0.0\s+([\d.]+)" true output), sc)
        | (Raises _, sc) => get_default_gateway_ip W s = (Returns None, sc)
        end
    end.
Proof.
  intros Hplat.
  assert (Hstep : exists sa,
             files sa = files s /\ (tick s <= tick sa)%nat /\
             get_default_gateway_ip W s =
             try_except
               (output <- check_output W [Some "ip"; Some "route"] ;;
                ret (re_search W "default via ([\d.]+)" false output))
               (fun _ =>
                  try_except
                    (output <- check_output W [Some "route"; Some "-n"] ;;
                     ret (re_search W "^0.0.0.0\s+([\d.]+)" true output))
                    (fun _ => ret None)) sa).
  { unfold get_default_gateway_ip.
    match goal with
    | |- context [bind ?p _] =>
        match p with try_except _ _ => set (prelude := p) end
    end.
    assert (Hsafe : safe prelude) by (apply safe_try; intro; apply safe_ret).
    assert (Hquiet : quiet prelude) by (subst prelude; quiet_walk).
    assert (Hup : ticks_up prelude) by (subst prelude; ticks_walk).
    destruct (Hsafe s) as ([] & sa & Hp).
    destruct (Hquiet s) as [Hf _]. specialize (Hup s).
    rewrite Hp in Hf, Hup. simpl in Hf, Hup.
    exists sa. split; [exact Hf | split; [exact Hup|]].
    unfold bind at 1. rewrite Hp. cbv zeta.
    assert (Hw : String.eqb (platform_system W) "Windows" = false)
      by (destruct Hplat as [-> | ->]; reflexivity).
    assert (Hl : String.eqb (platform_system W) "Linux"
                 || String.eqb (platform_system W) "Darwin" = true)
      by (destruct Hplat as [-> | ->]; reflexivity).
    rewrite Hw, Hl. reflexivity. }
  destruct Hstep as (sa & Hf & Hup & ->).
  exists sa. split; [exact Hf | split; [exact Hup|]].
  unfold try_except, bind, ret.
  destruct (check_output W [Some "ip"; Some "route"] sa) as [[output|e] sb].
  - reflexivity.
  - destruct (check_output W [Some "route"; Some "-n"] sb) as [[output|e'] sc];
      reflexivity.
Qed.

Lemma route_fallback_only_on_error_witness :
  let W := demo_world (Returns "10.0.0.0/8 dev tun0 scope link")
             (Returns "3 of 10 replied") in
  let s := boot no_files in
  exists sa,
    files sa = files s /\ (tick s <= tick sa)%nat /\
    match check_output W [Some "ip"; Some "route"] sa with
    | (Returns output, sb) =>
        get_default_gateway_ip W s =
        (Returns (re_search W "default via ([\d.]+)" false output), sb)
    | (Raises _, sb) =>
        match check_output W [Some "route"; Some "-n"] sb with
        | (Returns output, sc) =>
            get_default_gateway_ip W s =
            (Returns (re_search W "^0.0.0.0\s+([\d.]+)" true output), sc)
        | (Raises _, sc) => get_default_gateway_ip W s = (Returns None, sc)
        end
    end.
Proof.
  intros W s.
  apply (route_fallback_only_on_error W s).
  left. reflexivity.
Defined.
